(** * keras_nlp.models.Task: preset resolution, compile check, config
      round trip, preprocessing and attribute plumbing

    A shallow embedding of [src/keras_nlp/models/task.py].  Python class
    objects, keras and the preset utilities of [keras_nlp.utils] are
    collaborators of [Task]; they are not part of the file under study and
    enter the development as the fields of three interfaces
    ([PyClasses], [PyObjects], [Collaborators]).  Everything [task.py]
    itself does is written out as functions over them.

    Python dictionaries ([kwargs], [config], the instance [__dict__], the
    preset registry) are [gmap string _]; exceptions are values of [exn]
    carried by [result]; calls into the preset loader are recorded as a
    trace of [event]s, so that "raised before the preset was looked at" is a
    statement about that trace. *)

From stdpp Require Import base decidable option list strings gmap fin_maps fin_sets.
From Stdlib Require Import Lia.

Local Open Scope string_scope.
Local Open Scope list_scope.

(** ** Python classes *)

(** Class objects are compared by identity ([is], and [==] which classes do
    not override).  [backbone_cls] and [preprocessor_cls] are the class
    attributes of the same name ([None] on [Task] itself). *)
Class PyClasses := {
  Cls : Type;
  Cls_eq_dec :: EqDecision Cls;
  Task : Cls;
  Backbone : Cls;
  cls_name : Cls → string;
  issubclass : Cls → Cls → bool;
  backbone_cls : Cls → option Cls;
  preprocessor_cls : Cls → option Cls;
}.

(** ** Python objects and values *)

(** [Obj] are the objects handed around opaquely (backbones, preprocessors,
    tokenizers, loaded models), compared by identity; [Config] are the
    dictionaries keras serialization produces. *)
Class PyObjects := {
  Obj : Type;
  Obj_eq_dec :: EqDecision Obj;
  Config : Type;
  obj_str : Obj → string;
  config_str : Config → string;
}.

Inductive value `{PyObjects} :=
| VNone
| VBool (b : bool)
| VStr (s : string)
| VConfig (c : Config)
| VObj (o : Obj).

(** [str(v)], as an f-string renders it. *)
Definition py_str `{PyObjects} (v : value) : string :=
  match v with
  | VNone => "None"
  | VBool true => "True"
  | VBool false => "False"
  | VStr s => s
  | VConfig c => config_str c
  | VObj o => obj_str o
  end.

(** [bool(v)]: keras layers and models define neither [__bool__] nor
    [__len__], and a serialized config always has entries. *)
Definition truthy `{PyObjects} (v : value) : bool :=
  match v with
  | VNone => false
  | VBool b => b
  | VStr s => if decide (s = "") then false else true
  | VConfig _ => true
  | VObj _ => true
  end.

(** ** Exceptions and results *)

Inductive exn :=
| ValueError (msg : string)
| TypeError (msg : string)
| IndexError (msg : string)
| AttributeError (msg : string).

Inductive result (A : Type) :=
| Ok (a : A)
| Raise (e : exn).
Arguments Ok {A} a.
Arguments Raise {A} e.

Global Instance result_ret : MRet result := λ A a, Ok a.
Global Instance result_bind : MBind result := λ A B f r,
  match r with Ok a => f a | Raise e => Raise e end.

(** ** Task instances *)

(** What a constructed task carries: its [__dict__], the [name] keras keeps
    for it, and keras's own layer listing ([super().layers]). *)
Record fields `{PyObjects} := {
  inst_dict : gmap string value;
  inst_name : string;
  inst_layers : list Obj;
}.

Record instance `{PyClasses} `{PyObjects} := {
  type_of : Cls;
  self_of : fields;
}.

(** ** The preset loader and keras *)

(** Arguments of one [load_from_preset] call; [None] is an argument left to
    the callee's default. *)
Record load_args `{PyObjects} := {
  lp_preset : string;
  lp_load_weights : option bool;
  lp_config_file : option string;
  lp_config_overrides : option (gmap string value);
}.

Inductive event `{PyObjects} :=
| CheckConfigClass (preset : string)
| LoadFromPreset (args : load_args).

(** The resolved loss keras hands back from [keras.losses.get]: an instance
    of [keras.losses.SparseCategoricalCrossentropy] with the [from_logits]
    entry of its config, the function
    [keras.losses.sparse_categorical_crossentropy], or anything else. *)
Inductive loss_obj :=
| SparseCategoricalCrossentropy (from_logits : bool)
| sparse_categorical_crossentropy
| OtherLoss (id : string).

(** The [loss] argument of [compile]: a dict, list or tuple of losses, or a
    single value.  A single value can be a dict too (a serialized loss, a
    [VConfig]); [isinstance] tells, see [is_dict_list_or_tuple]. *)
Inductive loss_arg `{PyObjects} :=
| LossDict (d : list (string * value))
| LossList (l : list value)
| LossTuple (l : list value)
| LossSingle (l : value).

(** What [keras.activations.get] returns. *)
Inductive activation_fn :=
| softmax
| linear
| OtherActivation (id : string).

Global Instance activation_fn_eq_dec : EqDecision activation_fn.
Proof. solve_decision. Defined.

Class Collaborators `{PyClasses} `{PyObjects} := {
  (* keras_nlp.utils.preset_utils *)
  Meta : Type;
  check_config_class : string → result Cls;
  load_from_preset : load_args → result Obj;
  list_presets : Cls → gmap string Meta;
  list_subclasses : Cls → list Cls;
  (* Backbone.presets, a class property of keras_nlp.models.backbone *)
  backbone_presets : Cls → gmap string Meta;
  (* constructors: calling a class runs its [__init__] on a fresh object *)
  init : Cls → gmap string value → result fields;
  new_preprocessor : Cls → gmap string value → result Obj;
  (* keras *)
  keras_losses_get : value → result loss_obj;
  keras_activations_get : value → result activation_fn;
  keras_layers_serialize : value → value;
  keras_layers_deserialize : Config → result Obj;
  keras_compile : instance → value → loss_arg → gmap string value → result instance;
  (* what keras's own [__setattr__] does before it hands the assignment on
     to [object.__setattr__]: tracking of layers and variables and, on
     torch, of child modules; it can raise.  The value is handed on as it
     is (keras wraps a dict or list for tracking; the wrapper compares
     equal to it) *)
  keras_track : fields → string → value → result fields;
  call_layer : Obj → value → value → value → result (value * value * value);
  (* keras_nlp.backend.config *)
  config_backend : string;
  config_keras_3 : bool;
}.

(** ** A small monad: a result together with the loader calls made *)

Section Monad.
Context `{PyObjects}.

Definition M (A : Type) : Type := list event * result A.

Definition ret {A} (a : A) : M A := ([], Ok a).
Definition raise {A} (e : exn) : M A := ([], Raise e).
Definition bind {A B} (m : M A) (f : A → M B) : M B :=
  match m with
  | (tr, Ok a) => let '(tr', r) := f a in (tr ++ tr', r)
  | (tr, Raise e) => (tr, Raise e)
  end.
(** A call into the loader: the call is logged, its result passed on. *)
Definition call {A} (ev : event) (r : result A) : M A := ([ev], r).

Definition trace_of {A} (m : M A) : list event := m.1.
Definition result_of {A} (m : M A) : result A := m.2.
End Monad.

Notation "x <- m ;; k" := (bind m (λ x, k))
  (at level 100, m at next level, right associativity).

(** ** [Task] *)

Section TaskModel.
Context `{Collaborators}.

(** [sep.join(l)]. *)
Fixpoint join (sep : string) (l : list string) : string :=
  match l with
  | [] => ""
  | [s] => s
  | s :: rest => s +:+ sep +:+ join sep rest
  end.

(** *** Properties [backbone] and [preprocessor] *)

(** [getattr(self, name, None)]. *)
Definition getattr_or_none (self : fields) (name : string) : value :=
  default VNone (inst_dict self !! name).

Definition hasattr (self : fields) (name : string) : bool :=
  bool_decide (is_Some (inst_dict self !! name)).

Definition backbone (self : fields) : value := getattr_or_none self "_backbone".
Definition preprocessor (self : fields) : value := getattr_or_none self "_preprocessor".

(** [isinstance(getattr(type(self), name, None), property)], for the
    attributes of [Task] itself: the three properties it declares.  (The
    properties keras's classes bring along, such as [dtype_policy], are
    outside this model.) *)
Definition is_task_property (name : string) : bool :=
  bool_decide (name ∈ ["backbone"; "preprocessor"; "layers"]).

(** Writing the instance dictionary: what [object.__setattr__] does for a
    name the class has no data descriptor for. *)
Definition dict_setattr (self : fields) (name : string) (v : value) : fields :=
  {| inst_dict := <[name := v]> (inst_dict self);
     inst_name := inst_name self;
     inst_layers := inst_layers self |}.

(** [super().__setattr__(name, v)]: keras's own [__setattr__] does its
    tracking, which can raise, and hands the assignment on to
    [object.__setattr__]. *)
Definition keras_setattr (object_setattr : fields → string → value → result fields)
    (self : fields) (name : string) (v : value) : result fields :=
  match keras_track self name v with
  | Ok self => object_setattr self name v
  | Raise e => Raise e
  end.

(** [Task.__setattr__], lines 142-154, over the [object.__setattr__] it
    routes to; the third route is keras's own [__setattr__]. *)
Definition task_setattr (object_setattr : fields → string → value → result fields)
    (self : fields) (name : string) (v : value) : result fields :=
  let is_property := is_task_property name in
  let is_unitialized := negb (hasattr self "_initialized") in
  let is_torch := bool_decide (config_backend = "torch") in
  let is_keras_2 := negb config_keras_3 in
  if is_torch && (is_property || is_unitialized) then object_setattr self name v
  else if is_keras_2 && is_unitialized then object_setattr self name v
  else keras_setattr object_setattr self name v.

(** The setters: [self._backbone = value], [self._preprocessor = value].  The
    assignment inside is [Task.__setattr__] again, on a private name, which
    the class has no descriptor for. *)
Definition backbone_setter (self : fields) (v : value) : result fields :=
  task_setattr (λ s n x, Ok (dict_setattr s n x)) self "_backbone" v.

Definition preprocessor_setter (self : fields) (v : value) : result fields :=
  task_setattr (λ s n x, Ok (dict_setattr s n x)) self "_preprocessor" v.

(** [object.__setattr__]: a property of the class takes the assignment, with
    its setter when it has one; any other name goes to the dictionary. *)
Definition object_setattr (self : fields) (name : string) (v : value) : result fields :=
  if decide (name = "backbone") then backbone_setter self v
  else if decide (name = "preprocessor") then preprocessor_setter self v
  else if decide (name = "layers") then
    Raise (AttributeError "property 'layers' of 'Task' object has no setter")
  else Ok (dict_setattr self name v).

(** [setattr(self, name, v)], that is [self.name = v]. *)
Definition setattr (self : fields) (name : string) (v : value) : result fields :=
  task_setattr object_setattr self name v.

(** [task.backbone = v] and [task.preprocessor = v]. *)
Definition set_backbone (self : fields) (v : value) : result fields :=
  setattr self "backbone" v.

Definition set_preprocessor (self : fields) (v : value) : result fields :=
  setattr self "preprocessor" v.

(** *** [from_preset] *)

Inductive outcome :=
| Loaded (o : Obj)
| Built (i : instance).

(** Calling a task class [c] with keyword arguments: a fresh object of
    type [c], initialised by [c.__init__]. *)
Definition construct (c : Cls) (kwargs : gmap string value) : result instance :=
  match init c kwargs with
  | Ok st => Ok {| type_of := c; self_of := st |}
  | Raise e => Raise e
  end.

Definition msg_task_direct : string :=
  "Do not call `Task.from_preset()` directly. Instead call a " +:+
  "particular task class, e.g. " +:+
  "`keras_nlp.models.Classifier.from_preset()` or " +:+
  "`keras_nlp.models.BertClassifier.from_preset()`.".

Definition msg_backbone_kwarg (cls : Cls) (b : value) : string :=
  "You cannot pass a `backbone` argument to the `from_preset` " +:+
  "method. Instead, call the " +:+ cls_name cls +:+ " default " +:+
  "constructor with a `backbone` argument. " +:+
  "Received: backbone=" +:+ py_str b +:+ ".".

Definition msg_no_subclass (cls preset_cls : Cls) : string :=
  "No registered subclass of `" +:+ cls_name cls +:+ "` can load " +:+
  "a `" +:+ cls_name preset_cls +:+ "`.".

Definition msg_ambiguous (cls : Cls) (subclasses : list Cls) : string :=
  let names := join ", " ((λ x, "`" +:+ cls_name x +:+ "`") <$> subclasses) in
  "Ambiguous call to `" +:+ cls_name cls +:+ ".from_preset()`. " +:+
  "Found multiple possible subclasses " +:+ names +:+ ". " +:+
  "Please call `from_preset` on a subclass directly.".

Definition msg_not_subclass (cls preset_cls : Cls) : string :=
  "Preset has type `" +:+ cls_name preset_cls +:+ "` which is not a " +:+
  "a subclass of calling class `" +:+ cls_name cls +:+ "`. Call " +:+
  "`from_preset` directly on `" +:+ cls_name preset_cls +:+ "` instead.".

(** The subclasses of [cls] whose [backbone_cls] is [preset_cls]. *)
Definition matching_subclasses (cls preset_cls : Cls) : list Cls :=
  filter (λ x, backbone_cls x = Some preset_cls) (list_subclasses cls).

(** Lines 274-291: the class that will be instantiated. *)
Definition resolve_cls (cls preset_cls : Cls) : result Cls :=
  if decide (backbone_cls cls = Some preset_cls) then Ok cls
  else
    let subclasses := matching_subclasses cls preset_cls in
    if decide (length subclasses = 0) then
      Raise (ValueError (msg_no_subclass cls preset_cls))
    else if decide (1 < length subclasses) then
      Raise (ValueError (msg_ambiguous cls subclasses))
    else
      match subclasses !! 0%nat with
      | Some c => Ok c
      | None => Raise (IndexError "tuple index out of range")
      end.

(** Lines 301-308: an explicit [preprocessor] argument is taken out of
    [kwargs]; otherwise the tokenizer of the preset is loaded and wrapped
    by [cls.preprocessor_cls].  Returns the preprocessor and what is left
    of [kwargs]. *)
Definition get_preprocessor (cls : Cls) (preset : string)
    (kwargs : gmap string value) : M (value * gmap string value) :=
  match kwargs !! "preprocessor" with
  | Some p => ret (p, delete "preprocessor" kwargs)
  | None =>
    let targs := {| lp_preset := preset;
                    lp_load_weights := None;
                    lp_config_file := Some "tokenizer.json";
                    lp_config_overrides := None |} in
    tokenizer <- call (LoadFromPreset targs) (load_from_preset targs) ;;
    match preprocessor_cls cls with
    | Some pc =>
      match new_preprocessor pc ({[ "tokenizer" := VObj tokenizer ]} : gmap string value) with
      | Ok p => ret (VObj p, kwargs)
      | Raise e => raise e
      end
    | None => raise (TypeError "'NoneType' object is not callable")
    end
  end.

(** Lines 292-309: load the backbone, find or build the preprocessor,
    call the constructor of the effective class. *)
Definition build_from_backbone (cls : Cls) (preset : string)
    (load_weights : bool) (kwargs : gmap string value) : M outcome :=
  let '(config_overrides, kwargs) :=
    match kwargs !! "dtype" with
    | Some d => (({[ "dtype" := d ]} : gmap string value), delete "dtype" kwargs)
    | None => (∅, kwargs)
    end in
  let args := {| lp_preset := preset;
                 lp_load_weights := Some load_weights;
                 lp_config_file := None;
                 lp_config_overrides := Some config_overrides |} in
  backbone <- call (LoadFromPreset args) (load_from_preset args) ;;
  pk <- get_preprocessor cls preset kwargs ;;
  let '(preprocessor, kwargs) := pk in
  match construct cls
          (<["backbone" := VObj backbone]> (<["preprocessor" := preprocessor]> kwargs)) with
  | Ok i => ret (Built i)
  | Raise e => raise e
  end.

Definition from_preset (cls : Cls) (preset : string)
    (load_weights : bool) (kwargs : gmap string value) : M outcome :=
  if decide (cls = Task) then raise (ValueError msg_task_direct)
  else
    match kwargs !! "backbone" with
    | Some b => raise (ValueError (msg_backbone_kwarg cls b))
    | None =>
      preset_cls <- call (CheckConfigClass preset) (check_config_class preset) ;;
      if issubclass preset_cls Backbone then
        (* Backbone case. *)
        cls <- ([], resolve_cls cls preset_cls) ;;
        build_from_backbone cls preset load_weights kwargs
      else if negb (issubclass preset_cls cls) then
        (* Task case. *)
        raise (ValueError (msg_not_subclass cls preset_cls))
      else
        let args := {| lp_preset := preset;
                       lp_load_weights := Some load_weights;
                       lp_config_file := None;
                       lp_config_overrides := Some kwargs |} in
        o <- call (LoadFromPreset args) (load_from_preset args) ;;
        ret (Loaded o)
    end.

(** *** [_check_for_loss_mismatch] and [compile] *)

Definition msg_expects_logits : string :=
  "The `loss` passed to `compile()` expects logit output, but " +:+
  "the model is configured to output softmax probabilities " +:+
  "(`activation='softmax'`). This will not converge! Pass " +:+
  "`from_logits=False` to your loss, e.g. " +:+
  "`loss=keras.losses.SparseCategoricalCrossentropy(from_logits=False)`. ".

Definition msg_expects_softmax : string :=
  "The `loss` passed to `compile()` expects softmax probability " +:+
  "output, but the model is configured to output logits " +:+
  "(`activation=None`). This will not converge! Pass " +:+
  "`from_logits=True` to your loss, e.g. " +:+
  "`loss=keras.losses.SparseCategoricalCrossentropy(from_logits=True)`. ".

(** Lines 102-108: [from_logits] as the check reads it off the loss; [None]
    for a loss that is not sparse categorical crossentropy. *)
Definition from_logits_of (loss : loss_obj) : option bool :=
  match loss with
  | SparseCategoricalCrossentropy from_logits => Some from_logits
  | sparse_categorical_crossentropy => Some false
  | OtherLoss _ => None
  end.

(** Line 94: [isinstance(loss, (dict, list, tuple))]. *)
Definition is_dict_list_or_tuple (loss : loss_arg) : bool :=
  match loss with
  | LossDict _ | LossList _ | LossTuple _ => true
  | LossSingle (VConfig _) => true
  | LossSingle _ => false
  end.

Definition _check_for_loss_mismatch (self : fields) (loss : loss_arg) : result unit :=
  match loss with
  | LossDict _ | LossList _ | LossTuple _ =>
    (* Only handle a single loss. *)
    Ok ()
  | LossSingle loss =>
    if is_dict_list_or_tuple (LossSingle loss) then Ok () else
    match inst_dict self !! "activation" with
    | None =>
      (* Only handle tasks with activation. *)
      Ok ()
    | Some self_activation =>
      loss ← keras_losses_get loss;
      activation ← keras_activations_get self_activation;
      match from_logits_of loss with
      | None =>
        (* Only handle sparse categorical crossentropy. *)
        Ok ()
      | Some from_logits =>
        let softmax_output := bool_decide (activation = softmax) in
        let logit_output := bool_decide (activation = linear) in
        if softmax_output && from_logits then
          Raise (ValueError msg_expects_logits)
        else if logit_output && negb from_logits then
          Raise (ValueError msg_expects_softmax)
        else Ok ()
      end
    end
  end.

Definition compile (self : instance) (optimizer : value) (loss : loss_arg)
    (kwargs : gmap string value) : result instance :=
  (* Temporarily disable jit compilation on torch. *)
  let kwargs :=
    if decide (config_backend = "torch")
    then <["jit_compile" := VBool false]> kwargs
    else kwargs in
  _ ← _check_for_loss_mismatch (self_of self) loss;
  keras_compile self optimizer loss kwargs.

(** *** [preprocess_samples] *)

(** Modelled from the spec: [PipelineModel.preprocess_samples] of
    [keras_nlp/utils/pipeline_model.py], the method [Task] falls back to,
    is not among the sources.  The spec has the inputs "flow through
    unmodified": [x] comes back unchanged, and so do the optional labels
    and sample weights. *)
Definition pipeline_preprocess_samples (x y sample_weight : value)
    : result (value * value * value) :=
  Ok (x, y, sample_weight).

(** The name of [type(v)], for the message of a failed call. *)
Definition type_name (v : value) : string :=
  match v with
  | VNone => "NoneType"
  | VBool _ => "bool"
  | VStr _ => "str"
  | VConfig _ => "dict"
  | VObj _ => "object"
  end.

(** [f(x, y=y, sample_weight=sample_weight)] for a value [f]. *)
Definition py_call (f x y sample_weight : value) : result (value * value * value) :=
  match f with
  | VObj o => call_layer o x y sample_weight
  | _ => Raise (TypeError ("'" +:+ type_name f +:+ "' object is not callable"))
  end.

Definition preprocess_samples (self : fields) (x y sample_weight : value)
    : result (value * value * value) :=
  match preprocessor self with
  | VNone => pipeline_preprocess_samples x y sample_weight
  | p => py_call p x y sample_weight
  end.

(** *** [get_config] and [from_config] *)

Definition get_config (self : fields) : gmap string value :=
  <["backbone" := keras_layers_serialize (backbone self)]>
    (<["preprocessor" := keras_layers_serialize (preprocessor self)]>
       {["name" := VStr (inst_name self)]}).

(** [if key in config and isinstance(config[key], dict):
       config[key] = keras.layers.deserialize(config[key])]. *)
Definition deserialize_entry (key : string) (config : gmap string value)
    : result (gmap string value) :=
  match config !! key with
  | Some (VConfig c) =>
    o ← keras_layers_deserialize c; Ok (<[key := VObj o]> config)
  | _ => Ok config
  end.

Definition from_config (cls : Cls) (config : gmap string value) : result instance :=
  config ← deserialize_entry "backbone" config;
  config ← deserialize_entry "preprocessor" config;
  construct cls config.

(** *** [presets] *)

(** [presets.update(other)]: the entries of [other] win. *)
Definition dict_update {V} (presets other : gmap string V) : gmap string V :=
  other ∪ presets.

(** The class property recurses through [subclass.presets]; the recursion
    follows [list_subclasses], so the model takes fuel and returns [None]
    when it runs out. *)
Fixpoint presets (fuel : nat) (cls : Cls) : option (gmap string Meta) :=
  match fuel with
  | O => None
  | S fuel =>
    let presets0 := list_presets cls in
    (* We can also load backbone presets. *)
    let presets1 :=
      match backbone_cls cls with
      | Some b => dict_update presets0 (backbone_presets b)
      | None => presets0
      end in
    foldl (λ acc subclass,
             acc ← acc; sub ← presets fuel subclass; Some (dict_update acc sub))
          (Some presets1) (list_subclasses cls)
  end.

(** [presets] on [cls] returns [m], whatever fuel is given beyond the
    height of [cls] in the hierarchy. *)
Definition presets_returns (height : Cls → nat) (cls : Cls) (m : gmap string Meta) : Prop :=
  ∀ fuel, height cls < fuel → presets fuel cls = Some m.

(** The presets [cls] contributes itself: its own and its backbone's. *)
Definition declared_on (cls : Cls) (k : string) : Prop :=
  k ∈ dom (list_presets cls)
  ∨ ∃ b, backbone_cls cls = Some b ∧ k ∈ dom (backbone_presets b).

(** *** [layers] *)

(** [l.remove(o)]: drops the first entry equal to [o]; a [ValueError]
    when there is none. *)
Fixpoint list_remove_first (o : Obj) (l : list Obj) : result (list Obj) :=
  match l with
  | [] => Raise (ValueError "list.remove(x): x not in list")
  | x :: l' =>
    if decide (x = o) then Ok l'
    else l'' ← list_remove_first o l'; Ok (x :: l'')
  end.

(** [v in l] for a list of layers. *)
Definition value_in (v : value) (l : list Obj) : bool :=
  match v with
  | VObj o => bool_decide (o ∈ l)
  | _ => false
  end.

Definition layers (self : fields) : result (list Obj) :=
  (* Remove preprocessor from layers so it does not show up in the summary. *)
  let layers := inst_layers self in
  if truthy (preprocessor self) && value_in (preprocessor self) layers then
    match preprocessor self with
    | VObj o => list_remove_first o layers
    | _ => Raise (ValueError "list.remove(x): x not in list")
    end
  else Ok layers.

(** *** Sequences of property assignments *)

Inductive assignment :=
| AssignBackbone (v : value)
| AssignPreprocessor (v : value).

Definition assign (self : fields) (a : assignment) : result fields :=
  match a with
  | AssignBackbone v => set_backbone self v
  | AssignPreprocessor v => set_preprocessor self v
  end.

(** The assignments of [l], one after the other. *)
Fixpoint assign_all (self : fields) (l : list assignment) : result fields :=
  match l with
  | [] => Ok self
  | a :: l' => self' ← assign self a; assign_all self' l'
  end.

(** The value of the last [task.backbone = v] in a sequence, if any. *)
Fixpoint last_backbone (l : list assignment) : option value :=
  match l with
  | [] => None
  | a :: l' =>
    match last_backbone l' with
    | Some v => Some v
    | None => match a with AssignBackbone v => Some v | _ => None end
    end
  end.

Fixpoint last_preprocessor (l : list assignment) : option value :=
  match l with
  | [] => None
  | a :: l' =>
    match last_preprocessor l' with
    | Some v => Some v
    | None => match a with AssignPreprocessor v => Some v | _ => None end
    end
  end.

(** The attribute an assignment to [name] ends up in. *)
Definition attribute_of (name : string) : string :=
  if decide (name = "backbone") then "_backbone"
  else if decide (name = "preprocessor") then "_preprocessor"
  else name.

(** The states keras's tracking can lead to in the course of one
    assignment of [v]: at most two rounds of it are run. *)
Definition tracked (self : fields) (v : value) (s0 : fields) : Prop :=
  s0 = self
  ∨ (∃ n, keras_track self n v = Ok s0)
  ∨ (∃ n1 s1 n2, keras_track self n1 v = Ok s1 ∧ keras_track s1 n2 v = Ok s0).

(** What keras's tracking is relied on for: it leaves the two private
    attributes alone. *)
Definition keras_track_keeps : Prop :=
  ∀ (self self' : fields) (name : string) (v : value) (k : string),
    keras_track self name v = Ok self' →
    k ∈ ["_backbone"; "_preprocessor"] →
    inst_dict self' !! k = inst_dict self !! k.

(** keras's tracking never raises. *)
Definition keras_track_total : Prop :=
  ∀ (self : fields) (name : string) (v : value), ∃ self', keras_track self name v = Ok self'.

(** *** What [from_config] hands to the constructor *)

(** A serialized sub-configuration is deserialized, anything else is passed
    on as it is. *)
Definition restore (v : value) : result value :=
  match v with
  | VConfig c => o ← keras_layers_deserialize c; Ok (VObj o)
  | v => Ok v
  end.

Definition task_kwargs (b p : value) (name : string) : gmap string value :=
  <["backbone" := b]> (<["preprocessor" := p]> {["name" := VStr name]}).

End TaskModel.

(** ** A concrete runtime *)

(** A small class hierarchy in the shape of the library's: a task base class
    per problem ([Classifier]), model classes below it, one backbone class
    per model.  It is what the statements below are evaluated on. *)
Module Sample.

Inductive cls :=
| cTask
| cClassifier
| cBertClassifier
| cTinyBertClassifier
| cXLMRobertaClassifier
| cBackbone
| cBertBackbone
| cXLMRobertaBackbone
| cGemmaBackbone
| cBertPreprocessor
| cXLMRobertaPreprocessor.

Global Instance cls_eq_dec : EqDecision cls.
Proof. solve_decision. Defined.

Definition name_of (c : cls) : string :=
  match c with
  | cTask => "Task"
  | cClassifier => "Classifier"
  | cBertClassifier => "BertClassifier"
  | cTinyBertClassifier => "TinyBertClassifier"
  | cXLMRobertaClassifier => "XLMRobertaClassifier"
  | cBackbone => "Backbone"
  | cBertBackbone => "BertBackbone"
  | cXLMRobertaBackbone => "XLMRobertaBackbone"
  | cGemmaBackbone => "GemmaBackbone"
  | cBertPreprocessor => "BertPreprocessor"
  | cXLMRobertaPreprocessor => "XLMRobertaPreprocessor"
  end.

(** [c.__mro__], without [object] and the keras bases. *)
Definition mro (c : cls) : list cls :=
  match c with
  | cTask => [cTask]
  | cClassifier => [cClassifier; cTask]
  | cBertClassifier => [cBertClassifier; cClassifier; cTask]
  | cTinyBertClassifier => [cTinyBertClassifier; cBertClassifier; cClassifier; cTask]
  | cXLMRobertaClassifier => [cXLMRobertaClassifier; cClassifier; cTask]
  | cBackbone => [cBackbone]
  | cBertBackbone => [cBertBackbone; cBackbone]
  | cXLMRobertaBackbone => [cXLMRobertaBackbone; cBackbone]
  | cGemmaBackbone => [cGemmaBackbone; cBackbone]
  | cBertPreprocessor => [cBertPreprocessor]
  | cXLMRobertaPreprocessor => [cXLMRobertaPreprocessor]
  end.

Definition backbone_of (c : cls) : option cls :=
  match c with
  | cBertClassifier | cTinyBertClassifier => Some cBertBackbone
  | cXLMRobertaClassifier => Some cXLMRobertaBackbone
  | _ => None
  end.

Definition preprocessor_of (c : cls) : option cls :=
  match c with
  | cBertClassifier | cTinyBertClassifier => Some cBertPreprocessor
  | cXLMRobertaClassifier => Some cXLMRobertaPreprocessor
  | _ => None
  end.

Global Instance classes : PyClasses := {|
  Cls := cls;
  Task := cTask;
  Backbone := cBackbone;
  cls_name := name_of;
  issubclass := λ a b, bool_decide (b ∈ mro a);
  backbone_cls := backbone_of;
  preprocessor_cls := preprocessor_of;
|}.

Inductive obj :=
| LoadedModel (preset : string)
| LoadedTokenizer (preset : string)
| Preprocessor (c : cls) (tokenizer : string)
| Restored (config : string)
| Layer (name : string).

Global Instance obj_eq_dec : EqDecision obj.
Proof. solve_decision. Defined.

Definition config_of (o : obj) : string :=
  match o with
  | LoadedModel p => "model:" +:+ p
  | LoadedTokenizer p => "tokenizer:" +:+ p
  | Preprocessor c t => "preprocessor:" +:+ name_of c +:+ ":" +:+ t
  | Restored c => c
  | Layer n => "layer:" +:+ n
  end.

Global Instance objects : PyObjects := {|
  Obj := obj;
  Config := string;
  obj_str := λ o, "<" +:+ config_of o +:+ ">";
  config_str := λ c, "{" +:+ c +:+ "}";
|}.

(** An object as a value; a model loaded from a preset, as a value. *)
Definition as_value (o : obj) : value := VObj o.
Definition model (preset : string) : value := as_value (LoadedModel preset).

(** The class each preset's config declares. *)
Definition preset_class (preset : string) : result cls :=
  if decide (preset = "bert_base_en") then Ok cBertBackbone
  else if decide (preset = "xlm_roberta_base_multi") then Ok cXLMRobertaBackbone
  else if decide (preset = "gemma_2b_en") then Ok cGemmaBackbone
  else if decide (preset = "./my_bert_classifier") then Ok cBertClassifier
  else Raise (ValueError ("Unknown preset identifier: " +:+ preset)).

Definition load (args : load_args) : result obj :=
  match preset_class (lp_preset args) with
  | Ok _ =>
    match lp_config_file args with
    | Some _ => Ok (LoadedTokenizer (lp_preset args))
    | None => Ok (LoadedModel (lp_preset args))
    end
  | Raise e => Raise e
  end.

Definition own_presets (c : cls) : gmap string string :=
  match c with
  | cBertClassifier => {[ "bert_tiny_en_uncased_sst2" := "BertClassifier" ]}
  | _ => ∅
  end.

Definition presets_of_backbone (c : cls) : gmap string string :=
  match c with
  | cBertBackbone =>
    {[ "bert_base_en" := "BertBackbone"; "bert_tiny_en_uncased" := "BertBackbone" ]}
  | cXLMRobertaBackbone => {[ "xlm_roberta_base_multi" := "XLMRobertaBackbone" ]}
  | cGemmaBackbone => {[ "gemma_2b_en" := "GemmaBackbone" ]}
  | _ => ∅
  end.

(** The registered strict subclasses. *)
Definition subclasses_of (c : cls) : list cls :=
  filter (λ x, x ≠ c ∧ c ∈ mro x)
    [cClassifier; cBertClassifier; cTinyBertClassifier; cXLMRobertaClassifier].

Definition height (c : cls) : nat :=
  match c with
  | cTask => 3
  | cClassifier => 2
  | cBertClassifier => 1
  | _ => 0
  end.

(** The state a model class sets up: it stores the backbone and the
    preprocessor it is given ([self.backbone = backbone],
    [self.preprocessor = preprocessor]) and its activation. *)
Definition fields_of (b : obj) (p activation : value) (name : string) : fields :=
  {| inst_dict :=
       <["_backbone" := VObj b]>
         (<["_preprocessor" := p]>
            (<["activation" := activation]> {["_initialized" := VBool true]}));
     inst_name := name;
     inst_layers :=
       match p with VObj o => [b; o; Layer "logits"] | _ => [b; Layer "logits"] end |}.

Definition init_fields (c : cls) (kwargs : gmap string value) : result fields :=
  match kwargs !! "backbone" with
  | Some (VObj b) =>
    Ok (fields_of b
          (default VNone (kwargs !! "preprocessor"))
          (default VNone (kwargs !! "activation"))
          (match kwargs !! "name" with Some (VStr n) => n | _ => "task" end))
  | _ => Raise (TypeError "__init__() missing 1 required positional argument: 'backbone'")
  end.

(** A BERT classifier with its preprocessor, and what comes back of it
    from its configuration. *)
Definition bert_preprocessor : obj := Preprocessor cBertPreprocessor "bert_base_en".

Definition bert_task (activation : value) : fields :=
  fields_of (LoadedModel "bert_base_en") (VObj bert_preprocessor) activation "classifier".

Definition bert_task_restored : fields :=
  fields_of (Restored "model:bert_base_en")
    (VObj (Restored "preprocessor:BertPreprocessor:bert_base_en")) VNone "classifier".

(** A task whose preprocessor was taken away ([task.preprocessor = None]). *)
Definition bare_task : fields :=
  fields_of (LoadedModel "bert_base_en") VNone VNone "classifier".

(** An instance of [BertClassifier] with the given state. *)
Definition bert_classifier (self : fields) : instance :=
  @Build_instance classes objects cBertClassifier self.

Definition losses_get (v : value) : result loss_obj :=
  match v with
  | VNone => Ok (OtherLoss "None")
  | VStr s =>
    if decide (s = "sparse_categorical_crossentropy") then Ok sparse_categorical_crossentropy
    else if decide (s = "SparseCategoricalCrossentropy(from_logits=True)")
    then Ok (SparseCategoricalCrossentropy true)
    else if decide (s = "SparseCategoricalCrossentropy(from_logits=False)")
    then Ok (SparseCategoricalCrossentropy false)
    else if decide (s = "mse") then Ok (OtherLoss "mean_squared_error")
    else Raise (ValueError ("Could not interpret loss identifier: " +:+ s))
  | _ => Raise (ValueError "Could not interpret loss identifier")
  end.

Definition activations_get (v : value) : result activation_fn :=
  match v with
  | VNone => Ok linear
  | VStr s =>
    if decide (s = "softmax") then Ok softmax
    else if decide (s = "linear") then Ok linear
    else if decide (s = "relu") then Ok (OtherActivation "relu")
    else Raise (ValueError ("Could not interpret activation function identifier: " +:+ s))
  | _ => Raise (ValueError "Could not interpret activation function identifier")
  end.

Definition serialize (v : value) : value :=
  match v with
  | VObj o => VConfig (config_of o)
  | v => v
  end.

Definition store (self : fields) (name : string) (v : value) : fields :=
  {| inst_dict := <[name := v]> (inst_dict self);
     inst_name := inst_name self;
     inst_layers := inst_layers self |}.

(** A preprocessor that tags the inputs it has seen. *)
Definition run_layer (o : obj) (x y sample_weight : value) : result (value * value * value) :=
  match o with
  | Preprocessor _ t => Ok (VStr ("tokens of " +:+ py_str x +:+ " by " +:+ t), y, sample_weight)
  | _ => Raise (TypeError "not a preprocessor")
  end.

Global Instance collaborators : Collaborators := {|
  Meta := string;
  check_config_class := preset_class;
  load_from_preset := load;
  list_presets := own_presets;
  list_subclasses := subclasses_of;
  backbone_presets := presets_of_backbone;
  init := init_fields;
  new_preprocessor := λ c kwargs,
    match kwargs !! "tokenizer" with
    | Some (VObj (LoadedTokenizer p)) => Ok (Preprocessor c p)
    | _ => Raise (TypeError "__init__() missing 1 required positional argument: 'tokenizer'")
    end;
  keras_losses_get := losses_get;
  keras_activations_get := activations_get;
  keras_layers_serialize := serialize;
  keras_layers_deserialize := λ c, Ok (Restored c);
  keras_compile := λ self optimizer loss kwargs,
    Ok {| type_of := type_of self;
          self_of := store (self_of self) "compiled" (VBool true) |};
  keras_track := λ self name v, Ok self;
  call_layer := run_layer;
  config_backend := "tensorflow";
  config_keras_3 := true;
|}.

End Sample.

(** ** More of [Task]: loader traces and [__dir__] *)

(** The preset a loader call was made for. *)
Definition event_preset `{PyObjects} (ev : event) : string :=
  match ev with
  | CheckConfigClass preset => preset
  | LoadFromPreset args => lp_preset args
  end.

Definition is_load `{PyObjects} (ev : event) : bool :=
  match ev with
  | CheckConfigClass _ => false
  | LoadFromPreset _ => true
  end.

(** A consumed [filter(f, l)]: the items [f] is true on, in order; an
    exception of [f] ends the iteration. *)
Fixpoint py_filter {A} (f : A → result bool) (l : list A) : result (list A) :=
  match l with
  | [] => Ok []
  | x :: l' =>
    match f x with
    | Raise e => Raise e
    | Ok b =>
      match py_filter f l' with
      | Raise e => Raise e
      | Ok rest => Ok (if b then x :: rest else rest)
      end
    end
  end.

Section LoaderCalls.
Context `{Collaborators}.

(** The three calls [from_preset] makes to [load_from_preset]: for the
    backbone (line 296), for the tokenizer (line 304) and for a task preset
    (line 318). *)
Definition backbone_load_args (preset : string) (load_weights : bool)
    (kwargs : gmap string value) : load_args :=
  {| lp_preset := preset;
     lp_load_weights := Some load_weights;
     lp_config_file := None;
     lp_config_overrides :=
       Some (match kwargs !! "dtype" with
             | Some d => {[ "dtype" := d ]}
             | None => ∅
             end) |}.

Definition tokenizer_load_args (preset : string) : load_args :=
  {| lp_preset := preset;
     lp_load_weights := None;
     lp_config_file := Some "tokenizer.json";
     lp_config_overrides := None |}.

Definition task_load_args (preset : string) (load_weights : bool)
    (kwargs : gmap string value) : load_args :=
  {| lp_preset := preset;
     lp_load_weights := Some load_weights;
     lp_config_file := None;
     lp_config_overrides := Some kwargs |}.

(** What line 309 passes to the constructor: the backbone, the preprocessor
    and what is left of [kwargs] after the two [pop]s. *)
Definition constructor_kwargs (backbone : Obj) (preprocessor : value)
    (kwargs : gmap string value) : gmap string value :=
  <["backbone" := VObj backbone]>
    (<["preprocessor" := preprocessor]>
       (delete "preprocessor" (delete "dtype" kwargs))).

(** The outcome of the constructor call of line 309. *)
Definition constructed (cls : Cls) (kwargs : gmap string value) : result outcome :=
  match construct cls kwargs with
  | Ok i => Ok (Built i)
  | Raise e => Raise e
  end.

End LoaderCalls.

Section DirModel.
Context `{Collaborators}.

(** [id(v)] and [getattr(self, attr)], for the instance at hand. *)
Variable py_id : value → Z.
Variable py_getattr : string → result value.

(** Line 57-59 of [__init__]:
    [set(id(layer) for layer in self._flatten_layers())]. *)
Definition functional_layer_ids (flatten_layers : list Obj) : gset Z :=
  list_to_set ((λ layer, py_id (VObj layer)) <$> flatten_layers).

(** The attributes [__dir__] always leaves out on Keras 2. *)
Definition saving_attrs : list string :=
  ["_layer_checkpoint_dependencies"; "transformer_layers";
   "encoder_transformer_layers"; "decoder_transformer_layers"].

(** [filter_fn] of [__dir__], lines 74-82. *)
Definition filter_fn (_functional_layer_ids : gset Z) (attr : string) : result bool :=
  if bool_decide (attr ∈ saving_attrs) then Ok false
  else v ← py_getattr attr; Ok (bool_decide (py_id v ∉ _functional_layer_ids)).

(** [__dir__], lines 68-84, as [dir()] consumes it; [super_dir] is
    [super().__dir__()]. *)
Definition __dir__ (_functional_layer_ids : gset Z) (super_dir : list string)
    : result (list string) :=
  if config_keras_3 then Ok super_dir
  else py_filter (filter_fn _functional_layer_ids) super_dir.

End DirModel.

(** The concrete runtime on the torch backend, and on Keras 2. *)
Module SampleTorch.

(** torch's [Module.__setattr__] accepts only a module or [None] where a
    child module is registered. *)
Definition torch_track (self : fields) (name : string) (v : value) : result fields :=
  match inst_dict self !! name with
  | Some (VObj _) =>
    match v with
    | VNone | VObj _ => Ok self
    | _ =>
      Raise (TypeError ("cannot assign '" +:+ type_name v +:+ "' as child module '"
                        +:+ name +:+ "' (torch.nn.Module or None expected)"))
    end
  | _ => Ok self
  end.

Definition collaborators : @Collaborators Sample.classes Sample.objects := {|
  Meta := string;
  check_config_class := Sample.preset_class;
  load_from_preset := Sample.load;
  list_presets := Sample.own_presets;
  list_subclasses := Sample.subclasses_of;
  backbone_presets := Sample.presets_of_backbone;
  init := Sample.init_fields;
  new_preprocessor := @new_preprocessor _ _ Sample.collaborators;
  keras_losses_get := Sample.losses_get;
  keras_activations_get := Sample.activations_get;
  keras_layers_serialize := Sample.serialize;
  keras_layers_deserialize := @keras_layers_deserialize _ _ Sample.collaborators;
  keras_compile := @keras_compile _ _ Sample.collaborators;
  keras_track := torch_track;
  call_layer := Sample.run_layer;
  config_backend := "torch";
  config_keras_3 := true;
|}.

Definition keras_2 : @Collaborators Sample.classes Sample.objects := {|
  Meta := string;
  check_config_class := Sample.preset_class;
  load_from_preset := Sample.load;
  list_presets := Sample.own_presets;
  list_subclasses := Sample.subclasses_of;
  backbone_presets := Sample.presets_of_backbone;
  init := Sample.init_fields;
  new_preprocessor := @new_preprocessor _ _ Sample.collaborators;
  keras_losses_get := Sample.losses_get;
  keras_activations_get := Sample.activations_get;
  keras_layers_serialize := Sample.serialize;
  keras_layers_deserialize := @keras_layers_deserialize _ _ Sample.collaborators;
  keras_compile := @keras_compile _ _ Sample.collaborators;
  keras_track := λ self name v, Ok self;
  call_layer := Sample.run_layer;
  config_backend := "tensorflow";
  config_keras_3 := false;
|}.

(** An instance under construction: nothing assigned yet. *)
Definition blank : fields :=
  {| inst_dict := ∅; inst_name := "classifier"; inst_layers := [] |}.

(** Identities and attributes of a classifier, for [__dir__]. *)
Definition id_of (v : value) : Z :=
  match v with
  | VObj (Sample.LoadedModel _) => 140001
  | VObj (Sample.Layer _) => 140002
  | VObj _ => 140003
  | VStr _ => 140004
  | _ => 140005
  end%Z.

Definition attr_of (attr : string) : result value :=
  if decide (attr = "backbone") then Ok (Sample.model "bert_base_en")
  else if decide (attr = "name") then Ok (VStr "classifier")
  else if decide (attr = "compile") then Ok (VStr "<bound method>")
  else Raise (AttributeError attr).

End SampleTorch.

(** The same hierarchy with classes that declare no [preprocessor_cls]. *)
Module SampleBare.

Definition classes : PyClasses := {|
  Cls := Sample.cls;
  Task := Sample.cTask;
  Backbone := Sample.cBackbone;
  cls_name := Sample.name_of;
  issubclass := λ a b, bool_decide (b ∈ Sample.mro a);
  backbone_cls := Sample.backbone_of;
  preprocessor_cls := λ _, None;
|}.

Definition collaborators : @Collaborators classes Sample.objects :=
  @Build_Collaborators classes Sample.objects
    string
    Sample.preset_class
    Sample.load
    Sample.own_presets
    Sample.subclasses_of
    Sample.presets_of_backbone
    Sample.init_fields
    (@new_preprocessor _ _ Sample.collaborators)
    Sample.losses_get
    Sample.activations_get
    Sample.serialize
    (@keras_layers_deserialize _ _ Sample.collaborators)
    (λ self optimizer loss kwargs, Ok self)
    (λ self name v, Ok self)
    Sample.run_layer
    "tensorflow"
    true.

End SampleBare.

(** What [Classifier.from_preset("xlm_roberta_base_multi")] builds. *)
Definition xlm_roberta_classifier : @instance Sample.classes Sample.objects :=
  @Build_instance Sample.classes Sample.objects Sample.cXLMRobertaClassifier
    (Sample.fields_of (Sample.LoadedModel "xlm_roberta_base_multi")
       (Sample.as_value
          (Sample.Preprocessor Sample.cXLMRobertaPreprocessor "xlm_roberta_base_multi"))
       VNone "task").

(** * Properties *)

Section FromPreset.
Context `{Collaborators}.

Lemma bind_call_ok {A B} (ev : event) (r : result A) (a : A) (k : A → M B) :
  r = Ok a → bind (call ev r) k = (ev :: trace_of (k a), result_of (k a)).
Proof. intros ->. unfold bind, call. simpl. by destruct (k a). Qed.

Lemma bind_pure_ok {A B} (a : A) (k : A → M B) :
  bind ([], Ok a) k = k a.
Proof. unfold bind. by destruct (k a). Qed.

(** What survives of the class resolution for each size of the match. *)
Lemma resolve_cls_none cls preset_cls :
  backbone_cls cls ≠ Some preset_cls →
  length (matching_subclasses cls preset_cls) = 0 →
  resolve_cls cls preset_cls = Raise (ValueError (msg_no_subclass cls preset_cls)).
Proof.
  intros Hne Hlen. unfold resolve_cls.
  destruct (decide (backbone_cls cls = Some preset_cls)); [done|].
  by rewrite decide_True.
Qed.

Lemma resolve_cls_many cls preset_cls :
  backbone_cls cls ≠ Some preset_cls →
  1 < length (matching_subclasses cls preset_cls) →
  resolve_cls cls preset_cls =
    Raise (ValueError (msg_ambiguous cls (matching_subclasses cls preset_cls))).
Proof.
  intros Hne Hlen. unfold resolve_cls.
  destruct (decide (backbone_cls cls = Some preset_cls)); [done|].
  rewrite decide_False by lia. by rewrite decide_True.
Qed.

Lemma resolve_cls_one cls preset_cls sub :
  backbone_cls cls ≠ Some preset_cls →
  matching_subclasses cls preset_cls = [sub] →
  resolve_cls cls preset_cls = Ok sub.
Proof.
  intros Hne Hone. unfold resolve_cls.
  destruct (decide (backbone_cls cls = Some preset_cls)); [done|].
  rewrite Hone. repeat case_decide; simpl in *; try lia. done.
Qed.

Lemma result_of_bind {A B} (m : M A) (k : A → M B) :
  result_of (bind m k) = (result_of m ≫= λ a, result_of (k a)).
Proof. destruct m as [tr [a|e]]; simpl; [by destruct (k a)|done]. Qed.

Lemma result_of_call {A} (ev : event) (r : result A) : result_of (call ev r) = r.
Proof. reflexivity. Qed.

(** Whatever the backbone path returns was built by the constructor of
    the class it was entered with. *)
Lemma build_from_backbone_type cls preset load_weights kwargs o :
  result_of (build_from_backbone cls preset load_weights kwargs) = Ok o →
  ∃ st, o = Built {| type_of := cls; self_of := st |}.
Proof.
  unfold build_from_backbone.
  destruct (kwargs !! "dtype") as [d|]; cbv beta iota zeta;
    rewrite !result_of_bind, result_of_call;
    (match goal with |- context [load_from_preset ?a] =>
       destruct (load_from_preset a) as [b|e0] end; [| discriminate]);
    cbn [mbind result_bind]; rewrite result_of_bind;
    (match goal with |- context [get_preprocessor ?c ?p ?k] =>
       destruct (result_of (get_preprocessor c p k)) as [[pp kw]|e1] end;
     [| discriminate]);
    cbn [mbind result_bind]; unfold construct;
    (match goal with |- context [init ?c ?k] => destruct (init c k) as [st|e2] end;
     [| discriminate]);
    intros [= <-]; eauto.
Qed.

(** C5: [from_preset] called on [Task] itself raises the usage error
    whatever the preset identifier (and whatever the other arguments),
    and it does so before the preset is looked at: no call to the preset
    loader is made. *)
Theorem from_preset_on_Task_raises (preset : string) (load_weights : bool)
    (kwargs : gmap string value) :
  from_preset Task preset load_weights kwargs = ([], Raise (ValueError msg_task_direct)).
Proof. unfold from_preset. by rewrite decide_True. Qed.

(** C8: on every subclass of [Task], a [from_preset] call whose keyword
    arguments include [backbone] raises the usage error that sends the
    caller to the ordinary constructor, and the trace of loader calls is
    empty: no preset loading is attempted. *)
Theorem from_preset_rejects_backbone_kwarg (cls : Cls) (preset : string)
    (load_weights : bool) (kwargs : gmap string value) (b : value) :
  cls ≠ Task →
  kwargs !! "backbone" = Some b →
  from_preset cls preset load_weights kwargs =
    ([], Raise (ValueError (msg_backbone_kwarg cls b)))
  ∧ msg_backbone_kwarg cls b =
      "You cannot pass a `backbone` argument to the `from_preset` method. Instead, call the "
      +:+ cls_name cls +:+ " default constructor with a `backbone` argument. Received: backbone="
      +:+ py_str b +:+ ".".
Proof.
  intros Hcls Hb. split; [|reflexivity].
  unfold from_preset. rewrite decide_False by done. by rewrite Hb.
Qed.

(** C6 (amended): on a subclass of [Task], with no [backbone] keyword
    argument, a preset whose declared class is a task type (not a backbone)
    that is neither the calling class nor a subclass of it makes
    [from_preset] raise the type-mismatch error, which names the preset's
    class and tells the caller to call [from_preset] on it; only the class
    of the preset has been looked up by then. *)
Theorem from_preset_type_mismatch (cls : Cls) (preset : string)
    (load_weights : bool) (kwargs : gmap string value) (preset_cls : Cls) :
  cls ≠ Task →
  kwargs !! "backbone" = None →
  check_config_class preset = Ok preset_cls →
  issubclass preset_cls Backbone = false →
  issubclass preset_cls cls = false →
  from_preset cls preset load_weights kwargs =
    ([CheckConfigClass preset], Raise (ValueError (msg_not_subclass cls preset_cls)))
  ∧ msg_not_subclass cls preset_cls =
      "Preset has type `" +:+ cls_name preset_cls
      +:+ "` which is not a a subclass of calling class `" +:+ cls_name cls
      +:+ "`. Call `from_preset` directly on `" +:+ cls_name preset_cls +:+ "` instead.".
Proof.
  intros Hcls Hb Hpc Hbb Hsub. split; [|reflexivity].
  unfold from_preset. rewrite decide_False by done. rewrite Hb.
  rewrite (bind_call_ok _ _ preset_cls) by done.
  by rewrite Hbb, Hsub.
Qed.

(** The backbone path run to its end: when the two loads, the
    preprocessor and the constructor go through, the outcome is the object
    the constructor of the class made. *)
Lemma build_from_backbone_ok cls preset load_weights kwargs b pp kw st :
  load_from_preset
    {| lp_preset := preset;
       lp_load_weights := Some load_weights;
       lp_config_file := None;
       lp_config_overrides :=
         Some (match kwargs !! "dtype" with
               | Some d => {[ "dtype" := d ]}
               | None => ∅
               end) |} = Ok b →
  result_of (get_preprocessor cls preset (delete "dtype" kwargs)) = Ok (pp, kw) →
  init cls (<["backbone" := VObj b]> (<["preprocessor" := pp]> kw)) = Ok st →
  result_of (build_from_backbone cls preset load_weights kwargs) =
    Ok (Built {| type_of := cls; self_of := st |}).
Proof.
  intros Hb Hp Hi. unfold build_from_backbone.
  destruct (kwargs !! "dtype") as [d|] eqn:Hd; cbv beta iota zeta;
    rewrite ?(delete_id kwargs "dtype") in Hp by done;
    rewrite result_of_bind, result_of_call, Hb; cbn [mbind result_bind];
    rewrite result_of_bind, Hp; cbn [mbind result_bind];
    unfold construct; by rewrite Hi.
Qed.

(** C1 (amended): on a subclass of [Task], with no [backbone] keyword
    argument, and a preset whose declared class is a backbone type other
    than the calling class's [backbone_cls]: with no known subclass for
    that backbone the call raises the "no registered subclass" error; with
    more than one it raises the ambiguity error that asks for a call on a
    subclass; with exactly one, [sub], the call goes on as the backbone
    path of [sub]: whatever it returns is an instance of [sub], and it does
    return one when loading the backbone, obtaining the preprocessor and
    the constructor of [sub] succeed. *)
Theorem from_preset_resolves_subclass (cls : Cls) (preset : string)
    (load_weights : bool) (kwargs : gmap string value) (preset_cls : Cls) :
  cls ≠ Task →
  kwargs !! "backbone" = None →
  check_config_class preset = Ok preset_cls →
  issubclass preset_cls Backbone = true →
  backbone_cls cls ≠ Some preset_cls →
  (length (matching_subclasses cls preset_cls) = 0 →
     from_preset cls preset load_weights kwargs =
       ([CheckConfigClass preset], Raise (ValueError (msg_no_subclass cls preset_cls))))
  ∧ (1 < length (matching_subclasses cls preset_cls) →
     from_preset cls preset load_weights kwargs =
       ([CheckConfigClass preset],
        Raise (ValueError (msg_ambiguous cls (matching_subclasses cls preset_cls)))))
  ∧ (∀ sub, matching_subclasses cls preset_cls = [sub] →
     from_preset cls preset load_weights kwargs =
       (CheckConfigClass preset
          :: trace_of (build_from_backbone sub preset load_weights kwargs),
        result_of (build_from_backbone sub preset load_weights kwargs))
     ∧ (∀ o, result_of (from_preset cls preset load_weights kwargs) = Ok o →
          ∃ st, o = Built {| type_of := sub; self_of := st |})
     ∧ (∀ b pp kw st,
          load_from_preset
            {| lp_preset := preset;
               lp_load_weights := Some load_weights;
               lp_config_file := None;
               lp_config_overrides :=
                 Some (match kwargs !! "dtype" with
                       | Some d => {[ "dtype" := d ]}
                       | None => ∅
                       end) |} = Ok b →
          result_of (get_preprocessor sub preset (delete "dtype" kwargs)) = Ok (pp, kw) →
          init sub (<["backbone" := VObj b]> (<["preprocessor" := pp]> kw)) = Ok st →
          result_of (from_preset cls preset load_weights kwargs) =
            Ok (Built {| type_of := sub; self_of := st |}))).
Proof.
  intros Hcls Hb Hpc Hbb Hne.
  assert (Hstep : from_preset cls preset load_weights kwargs =
    (CheckConfigClass preset
       :: trace_of (c <- ([], resolve_cls cls preset_cls) ;;
                    build_from_backbone c preset load_weights kwargs),
     result_of (c <- ([], resolve_cls cls preset_cls) ;;
                build_from_backbone c preset load_weights kwargs))).
  { unfold from_preset. rewrite decide_False by done. rewrite Hb.
    rewrite (bind_call_ok _ _ preset_cls) by done. by rewrite Hbb. }
  split; [|split].
  - intros Hlen. rewrite Hstep, resolve_cls_none by done. reflexivity.
  - intros Hlen. rewrite Hstep, resolve_cls_many by done. reflexivity.
  - intros sub Hone.
    assert (Hsub : from_preset cls preset load_weights kwargs =
      (CheckConfigClass preset
         :: trace_of (build_from_backbone sub preset load_weights kwargs),
       result_of (build_from_backbone sub preset load_weights kwargs))).
    { rewrite Hstep, (resolve_cls_one _ _ sub), bind_pure_ok by done. reflexivity. }
    split; [exact Hsub|]. rewrite Hsub. split.
    + intros o Ho. by apply (build_from_backbone_type sub preset load_weights kwargs).
    + intros b pp kw st Hl Hp Hi. by apply (build_from_backbone_ok _ _ _ _ b pp kw).
Qed.

End FromPreset.

Section Compile.
Context `{Collaborators}.

(** The check on a single loss that is no dict, and a task with an
    [activation]: keras resolves the loss, then the activation. *)
Lemma check_single self l a :
  (∀ c, l ≠ VConfig c) →
  inst_dict self !! "activation" = Some a →
  _check_for_loss_mismatch self (LossSingle l) =
    match keras_losses_get l with
    | Raise e => Raise e
    | Ok lo =>
      match keras_activations_get a with
      | Raise e => Raise e
      | Ok act =>
        match lo with
        | SparseCategoricalCrossentropy true =>
          if bool_decide (act = softmax)
          then Raise (ValueError msg_expects_logits) else Ok ()
        | SparseCategoricalCrossentropy false | sparse_categorical_crossentropy =>
          if bool_decide (act = linear)
          then Raise (ValueError msg_expects_softmax) else Ok ()
        | OtherLoss _ => Ok ()
        end
      end
    end.
Proof.
  intros Hl Ha. unfold _check_for_loss_mismatch.
  assert (is_dict_list_or_tuple (LossSingle l) = false) as ->.
  { destruct l as [| | |c|]; try reflexivity. by destruct (Hl c). }
  rewrite Ha.
  destruct (keras_losses_get l) as [lo|e]; [|done]. simpl.
  destruct (keras_activations_get a) as [act|e]; [|done]. simpl.
  destruct lo as [[|]| |id]; simpl; try done;
    by destruct (bool_decide (act = softmax)), (bool_decide (act = linear)).
Qed.

Lemma compile_after_check self optimizer loss kwargs :
  _check_for_loss_mismatch (self_of self) loss = Ok () →
  compile self optimizer loss kwargs =
    keras_compile self optimizer loss
      (if decide (config_backend = "torch")
       then <["jit_compile" := VBool false]> kwargs else kwargs).
Proof. intros Hc. unfold compile. by rewrite Hc. Qed.

Lemma compile_check_raises self optimizer loss kwargs e :
  _check_for_loss_mismatch (self_of self) loss = Raise e →
  compile self optimizer loss kwargs = Raise e.
Proof. intros Hc. unfold compile. by rewrite Hc. Qed.

(** C2, amended: for a single loss (no dict, list or tuple) on a task with
    an [activation] attribute, [compile] raises the configuration error
    when keras resolves the loss to a [SparseCategoricalCrossentropy] with
    [from_logits=True] and the activation to softmax, and when it resolves
    the loss to one with [from_logits=False], or to the function
    [sparse_categorical_crossentropy], and the activation to linear.  With
    the matching [from_logits], and for any resolved loss and activation
    that are not one of these two pairs, so for every loss that is not sparse
    categorical crossentropy whose task has an activation keras resolves,
    the check passes and [compile] is the underlying compile step.  When
    keras cannot resolve the loss, or the activation, [compile] raises
    keras's error, for any kind of single loss.  The check passes at once,
    keras resolving nothing, for a dict, list or tuple and for a task
    without an [activation] attribute. *)
Theorem compile_loss_mismatch (self : instance) (optimizer : value)
    (kwargs : gmap string value) :
  let delegated loss :=
    keras_compile self optimizer loss
      (if decide (config_backend = "torch")
       then <["jit_compile" := VBool false]> kwargs else kwargs) in
  (∀ l a,
     (∀ c, l ≠ VConfig c) →
     inst_dict (self_of self) !! "activation" = Some a →
     (keras_losses_get l = Ok (SparseCategoricalCrossentropy true) →
      keras_activations_get a = Ok softmax →
        compile self optimizer (LossSingle l) kwargs =
          Raise (ValueError msg_expects_logits))
     ∧ (keras_losses_get l = Ok (SparseCategoricalCrossentropy false)
        ∨ keras_losses_get l = Ok sparse_categorical_crossentropy →
        keras_activations_get a = Ok linear →
        compile self optimizer (LossSingle l) kwargs =
          Raise (ValueError msg_expects_softmax))
     ∧ (keras_losses_get l = Ok (SparseCategoricalCrossentropy false)
        ∨ keras_losses_get l = Ok sparse_categorical_crossentropy →
        keras_activations_get a = Ok softmax →
        _check_for_loss_mismatch (self_of self) (LossSingle l) = Ok ()
        ∧ compile self optimizer (LossSingle l) kwargs = delegated (LossSingle l))
     ∧ (keras_losses_get l = Ok (SparseCategoricalCrossentropy true) →
        keras_activations_get a = Ok linear →
        _check_for_loss_mismatch (self_of self) (LossSingle l) = Ok ()
        ∧ compile self optimizer (LossSingle l) kwargs = delegated (LossSingle l))
     ∧ (∀ lo act,
          keras_losses_get l = Ok lo →
          keras_activations_get a = Ok act →
          ¬ (lo = SparseCategoricalCrossentropy true ∧ act = softmax) →
          ¬ ((lo = SparseCategoricalCrossentropy false
              ∨ lo = sparse_categorical_crossentropy) ∧ act = linear) →
          _check_for_loss_mismatch (self_of self) (LossSingle l) = Ok ()
          ∧ compile self optimizer (LossSingle l) kwargs = delegated (LossSingle l))
     ∧ (∀ id act,
          keras_losses_get l = Ok (OtherLoss id) →
          keras_activations_get a = Ok act →
          _check_for_loss_mismatch (self_of self) (LossSingle l) = Ok ()
          ∧ compile self optimizer (LossSingle l) kwargs = delegated (LossSingle l))
     ∧ (∀ e, keras_losses_get l = Raise e →
             compile self optimizer (LossSingle l) kwargs = Raise e)
     ∧ (∀ lo e, keras_losses_get l = Ok lo →
                keras_activations_get a = Raise e →
                compile self optimizer (LossSingle l) kwargs = Raise e))
  ∧ (∀ loss,
       (∀ l, loss = LossSingle l → ∃ c, l = VConfig c) →
       _check_for_loss_mismatch (self_of self) loss = Ok ()
       ∧ compile self optimizer loss kwargs = delegated loss)
  ∧ (∀ loss,
       inst_dict (self_of self) !! "activation" = None →
       _check_for_loss_mismatch (self_of self) loss = Ok ()
       ∧ compile self optimizer loss kwargs = delegated loss).
Proof.
  intros delegated. split; [|split].
  - intros l a Hl Ha. pose proof (check_single _ l a Hl Ha) as Hc.
    split; [|split; [|split; [|split; [|split; [|split; [|split]]]]]].
    + intros Hlo Hact. rewrite Hlo, Hact in Hc. by apply compile_check_raises.
    + intros [Hlo|Hlo] Hact; rewrite Hlo, Hact in Hc; by apply compile_check_raises.
    + intros [Hlo|Hlo] Hact; rewrite Hlo, Hact in Hc;
        (split; [done|]); by apply compile_after_check.
    + intros Hlo Hact. rewrite Hlo, Hact in Hc.
      split; [done|]. by apply compile_after_check.
    + intros lo act Hlo Hact Hn1 Hn2. rewrite Hlo, Hact in Hc.
      assert (_check_for_loss_mismatch (self_of self) (LossSingle l) = Ok ()) as Hok.
      { rewrite Hc. destruct lo as [[|]| |id]; [| | |done].
        - rewrite bool_decide_eq_false_2; [done|]. intros ->. by apply Hn1.
        - rewrite bool_decide_eq_false_2; [done|]. intros ->. apply Hn2. by split; [left|].
        - rewrite bool_decide_eq_false_2; [done|]. intros ->. apply Hn2. by split; [right|]. }
      split; [done|]. by apply compile_after_check.
    + intros id act Hlo Hact. rewrite Hlo, Hact in Hc.
      split; [done|]. by apply compile_after_check.
    + intros e Hlo. rewrite Hlo in Hc. by apply compile_check_raises.
    + intros lo e Hlo Hact. rewrite Hlo, Hact in Hc. by apply compile_check_raises.
  - intros loss Hcomposite.
    assert (_check_for_loss_mismatch (self_of self) loss = Ok ()) as Hc.
    { destruct loss as [d|ls|ls|l]; try reflexivity.
      by destruct (Hcomposite l eq_refl) as [c ->]. }
    split; [done|]. by apply compile_after_check.
  - intros loss Ha.
    assert (_check_for_loss_mismatch (self_of self) loss = Ok ()) as Hc.
    { unfold _check_for_loss_mismatch. destruct loss as [d|ls|ls|l]; try reflexivity.
      rewrite Ha. by destruct (is_dict_list_or_tuple _). }
    split; [done|]. by apply compile_after_check.
Qed.

End Compile.

Section Preprocess.
Context `{Collaborators}.

(** C4: with a preprocessor set, [preprocess_samples] is the call of the
    preprocessor on [(x, y, sample_weight)] and returns exactly what that
    call returns; with the preprocessor unset, [x], [y] and
    [sample_weight] come back unchanged. *)
Theorem preprocess_samples_delegates (self : fields) (x y sample_weight : value) :
  (preprocessor self ≠ VNone →
     preprocess_samples self x y sample_weight =
       py_call (preprocessor self) x y sample_weight)
  ∧ (∀ p, preprocessor self = VObj p →
       preprocess_samples self x y sample_weight = call_layer p x y sample_weight)
  ∧ (preprocessor self = VNone →
       preprocess_samples self x y sample_weight = Ok (x, y, sample_weight)).
Proof.
  unfold preprocess_samples. repeat split.
  - intros Hp. by destruct (preprocessor self).
  - by intros p ->.
  - by intros ->.
Qed.

End Preprocess.

Section Config.
Context `{Collaborators}.

Lemma get_config_backbone self :
  get_config self !! "backbone" = Some (keras_layers_serialize (backbone self)).
Proof. unfold get_config. by rewrite lookup_insert_eq. Qed.

Lemma get_config_preprocessor self :
  get_config self !! "preprocessor" = Some (keras_layers_serialize (preprocessor self)).
Proof. unfold get_config. rewrite lookup_insert_ne by done. by rewrite lookup_insert_eq. Qed.

Lemma get_config_name self :
  get_config self !! "name" = Some (VStr (inst_name self)).
Proof.
  unfold get_config. rewrite !lookup_insert_ne by done. by rewrite lookup_singleton_eq.
Qed.

Lemma get_config_task_kwargs self :
  get_config self =
    task_kwargs (keras_layers_serialize (backbone self))
      (keras_layers_serialize (preprocessor self)) (inst_name self).
Proof. reflexivity. Qed.

(** One entry of the flat mapping put through [from_config]'s
    deserialization step. *)
Lemma deserialize_entry_backbone b p name :
  deserialize_entry "backbone" (task_kwargs b p name) =
    (b' ← restore b; Ok (task_kwargs b' p name)).
Proof.
  unfold deserialize_entry, task_kwargs. rewrite lookup_insert_eq.
  destruct b as [| | |c|]; simpl; try done.
  destruct (keras_layers_deserialize c); simpl; [|done].
  by rewrite insert_insert_eq.
Qed.

Lemma deserialize_entry_preprocessor b p name :
  deserialize_entry "preprocessor" (task_kwargs b p name) =
    (p' ← restore p; Ok (task_kwargs b p' name)).
Proof.
  unfold deserialize_entry, task_kwargs.
  rewrite lookup_insert_ne by done. rewrite lookup_insert_eq.
  destruct p as [| | |c|]; simpl; try done.
  destruct (keras_layers_deserialize c); simpl; [|done].
  rewrite (insert_insert_ne _ "preprocessor" "backbone") by done.
  by rewrite insert_insert_eq.
Qed.

Lemma from_config_task_kwargs cls b p name :
  from_config cls (task_kwargs b p name) =
    (b' ← restore b; p' ← restore p; construct cls (task_kwargs b' p' name)).
Proof.
  unfold from_config. rewrite deserialize_entry_backbone.
  destruct (restore b) as [b'|e]; simpl; [|done].
  rewrite deserialize_entry_preprocessor.
  by destruct (restore p) as [p'|e]; simpl.
Qed.

(** C3: [get_config] is a flat mapping with exactly the entries
    [backbone], [preprocessor] and [name], holding the serialized backbone,
    the serialized preprocessor and the name; [from_config] on it
    deserializes the two sub-configurations and calls the constructor of
    the class with them and the name; and when the constructor keeps what
    it is given and deserialization gives objects with the configuration
    they were made from, the instance that comes back has the class, the
    name and the same [get_config]: the backbone and preprocessor
    configurations are the same. *)
Theorem config_round_trip (cls : Cls) (self : fields) :
  dom (get_config self) = ({[ "backbone"; "preprocessor"; "name" ]} : gset string)
  ∧ get_config self !! "backbone" = Some (keras_layers_serialize (backbone self))
  ∧ get_config self !! "preprocessor" = Some (keras_layers_serialize (preprocessor self))
  ∧ get_config self !! "name" = Some (VStr (inst_name self))
  ∧ from_config cls (get_config self) =
      (b ← restore (keras_layers_serialize (backbone self));
       p ← restore (keras_layers_serialize (preprocessor self));
       construct cls (task_kwargs b p (inst_name self)))
  ∧ (∀ b p st,
       restore (keras_layers_serialize (backbone self)) = Ok b →
       restore (keras_layers_serialize (preprocessor self)) = Ok p →
       keras_layers_serialize b = keras_layers_serialize (backbone self) →
       keras_layers_serialize p = keras_layers_serialize (preprocessor self) →
       init cls (task_kwargs b p (inst_name self)) = Ok st →
       backbone st = b → preprocessor st = p → inst_name st = inst_name self →
       from_config cls (get_config self) = Ok {| type_of := cls; self_of := st |}
       ∧ get_config st = get_config self).
Proof.
  split; [|split; [|split; [|split; [|split]]]].
  - unfold get_config. rewrite !dom_insert_L, dom_singleton_L. set_solver.
  - apply get_config_backbone.
  - apply get_config_preprocessor.
  - apply get_config_name.
  - by rewrite get_config_task_kwargs, from_config_task_kwargs.
  - intros b p st Hb Hp Hsb Hsp Hinit Hb' Hp' Hn.
    rewrite get_config_task_kwargs, from_config_task_kwargs, Hb. simpl.
    rewrite Hp. simpl. unfold construct. rewrite Hinit. split; [done|].
    rewrite !get_config_task_kwargs. by rewrite Hb', Hp', Hn, Hsb, Hsp.
Qed.

End Config.

Section Layers.
Context `{Collaborators}.

Lemma list_remove_first_elem_of (o : Obj) (l : list Obj) :
  o ∈ l →
  ∃ l1 l2, l = l1 ++ (o :: l2) ∧ (o ∉ l1) ∧ list_remove_first o l = Ok (l1 ++ l2).
Proof.
  induction l as [|x l IH]; intros Hin.
  - by apply elem_of_nil in Hin.
  - simpl. destruct (decide (x = o)) as [->|Hne].
    + exists [], l. split; [done|]. split; [apply not_elem_of_nil|done].
    + apply elem_of_cons in Hin as [->|Hin]; [done|].
      destruct (IH Hin) as (l1 & l2 & -> & Hnot & ->).
      exists (x :: l1), l2. split; [done|]. split; [|done].
      intros [?|?]%elem_of_cons; [by subst|done].
Qed.

Lemma filter_ne_middle (p : Obj) (l1 l2 : list Obj) :
  filter (λ x, x ≠ p) (l1 ++ l2) = filter (λ x, x ≠ p) (l1 ++ (p :: l2)).
Proof. rewrite !filter_app, filter_cons_False; [done|]. by intros ?. Qed.

Lemma filter_ne_absent (p : Obj) (l : list Obj) :
  p ∉ l → filter (λ x, x ≠ p) l = l.
Proof.
  induction l as [|x l IH]; intros Hnot; [done|].
  apply not_elem_of_cons in Hnot as [Hne Hnot].
  rewrite filter_cons_True by done. by rewrite IH.
Qed.

Lemma NoDup_middle_absent (p : Obj) (l1 l2 : list Obj) :
  NoDup (l1 ++ (p :: l2)) → p ∉ l1 ++ l2.
Proof.
  intros Hnd. apply NoDup_app in Hnd as (_ & Hdisj & Hnd).
  apply NoDup_cons in Hnd as [Hp2 _].
  intros [Hin|Hin]%elem_of_app; [|done].
  apply (Hdisj p Hin). by left.
Qed.

(** C9: [layers] never raises.  When the preprocessor is set and is in the
    standard listing, what comes back is that listing without its (first)
    occurrence of the preprocessor; in every other case it is the
    listing itself.  The layers other than the preprocessor are the same
    and in the same order, and in a listing without repetitions the
    preprocessor is gone from the result. *)
Theorem layers_removes_preprocessor (self : fields) :
  (∀ p, preprocessor self = VObj p → p ∈ inst_layers self →
     ∃ l1 l2, inst_layers self = l1 ++ (p :: l2) ∧ (p ∉ l1)
              ∧ layers self = Ok (l1 ++ l2)
              ∧ filter (λ x, x ≠ p) (l1 ++ l2) = filter (λ x, x ≠ p) (inst_layers self)
              ∧ (NoDup (inst_layers self) →
                 (p ∉ l1 ++ l2) ∧ l1 ++ l2 = filter (λ x, x ≠ p) (inst_layers self)))
  ∧ ((∀ p, preprocessor self = VObj p → p ∉ inst_layers self) →
     layers self = Ok (inst_layers self)).
Proof.
  split.
  - intros p Hp Hin.
    destruct (list_remove_first_elem_of p _ Hin) as (l1 & l2 & Heq & Hnot & Hrem).
    exists l1, l2. split; [done|]. split; [done|]. split; [|split].
    + unfold layers. rewrite Hp. simpl. by rewrite bool_decide_eq_true_2 by done.
    + rewrite Heq. apply filter_ne_middle.
    + intros Hnd. rewrite Heq in Hnd. pose proof (NoDup_middle_absent _ _ _ Hnd) as Ha.
      split; [done|]. rewrite Heq, <- filter_ne_middle. by rewrite filter_ne_absent.
  - intros Hnot. unfold layers.
    destruct (preprocessor self) as [| | | |p] eqn:Hp; simpl;
      rewrite ?andb_false_r; try done.
    by rewrite bool_decide_eq_false_2 by (by apply Hnot).
Qed.

End Layers.

Section Properties.
Context `{Collaborators}.

Lemma tracked_keeps self v s0 k :
  keras_track_keeps → tracked self v s0 →
  k ∈ ["_backbone"; "_preprocessor"] →
  inst_dict s0 !! k = inst_dict self !! k.
Proof.
  intros Hk [->|[(n & Hn)|(n1 & s1 & n2 & Hn1 & Hn2)]] Hin; [done|..].
  - by apply (Hk _ _ _ _ _ Hn).
  - rewrite (Hk _ _ _ _ _ Hn2 Hin). by apply (Hk _ _ _ _ _ Hn1).
Qed.

(** An assignment to one of the two properties, on every route: when it
    returns, the private attribute of the property has been written by the
    setter, after keras's tracking at most; when it raises, keras's tracking
    has raised. *)
Lemma setattr_property self name v :
  name = "backbone" ∨ name = "preprocessor" →
  match setattr self name v with
  | Ok self' =>
    ∃ s0, tracked self v s0
          ∧ inst_dict self' = <[attribute_of name := v]> (inst_dict s0)
  | Raise e => ∃ s n, keras_track s n v = Raise e
  end.
Proof.
  intros Hname.
  assert (∀ s, match task_setattr (λ s n x, Ok (dict_setattr s n x)) s
                       (attribute_of name) v with
               | Ok self' =>
                 (∃ s0, (s0 = s ∨ ∃ n, keras_track s n v = Ok s0)
                        ∧ inst_dict self' = <[attribute_of name := v]> (inst_dict s0))
               | Raise e => ∃ s n, keras_track s n v = Raise e
               end) as Hsetter.
  { intros s. unfold task_setattr, keras_setattr.
    repeat match goal with |- context [if ?b then _ else _] => destruct b end;
      try (exists s; split; [by left|done]).
    destruct (keras_track s (attribute_of name) v) as [s1|e] eqn:Ht; [|by eauto].
    exists s1. split; [right; by eexists|done]. }
  assert (∀ s, object_setattr s name v =
               task_setattr (λ s n x, Ok (dict_setattr s n x)) s (attribute_of name) v)
    as Hobj' by (intros s; by destruct Hname as [-> | ->]).
  unfold setattr. unfold task_setattr at 1. unfold keras_setattr.
  repeat match goal with |- context [if ?b then _ else _] => destruct b end.
  - rewrite Hobj'. specialize (Hsetter self).
    destruct (task_setattr _ self _ v) as [s'|e]; [|done].
    destruct Hsetter as (s0 & [Heq|(n & Hn)] & Hd); exists s0; (split; [|done]).
    + by left.
    + right. left. by exists n.
  - rewrite Hobj'. specialize (Hsetter self).
    destruct (task_setattr _ self _ v) as [s'|e]; [|done].
    destruct Hsetter as (s0 & [Heq|(n & Hn)] & Hd); exists s0; (split; [|done]).
    + by left.
    + right. left. by exists n.
  - destruct (keras_track self name v) as [s1|e] eqn:Ht; [|by eauto].
    rewrite Hobj'. specialize (Hsetter s1).
    destruct (task_setattr _ s1 _ v) as [s'|e]; [|done].
    destruct Hsetter as (s0 & [Heq|(n & Hn)] & Hd); exists s0; (split; [|done]).
    + right. left. exists name. by rewrite Heq.
    + right. right. by exists name, s1, n.
Qed.

Lemma set_backbone_Ok self v self' :
  set_backbone self v = Ok self' →
  backbone self' = v
  ∧ (keras_track_keeps → preprocessor self' = preprocessor self).
Proof.
  intros Hs. pose proof (setattr_property self "backbone" v (or_introl eq_refl)) as Hsp.
  unfold set_backbone in Hs. rewrite Hs in Hsp.
  destruct Hsp as (s0 & Htr & Hd). change (attribute_of "backbone") with "_backbone" in Hd.
  unfold backbone, preprocessor, getattr_or_none. rewrite Hd. split.
  - by rewrite lookup_insert_eq.
  - intros Hk. rewrite lookup_insert_ne by done.
    rewrite (tracked_keeps self v s0 "_preprocessor" Hk Htr); [done|set_solver].
Qed.

Lemma set_preprocessor_Ok self v self' :
  set_preprocessor self v = Ok self' →
  preprocessor self' = v
  ∧ (keras_track_keeps → backbone self' = backbone self).
Proof.
  intros Hs. pose proof (setattr_property self "preprocessor" v (or_intror eq_refl)) as Hsp.
  unfold set_preprocessor in Hs. rewrite Hs in Hsp.
  destruct Hsp as (s0 & Htr & Hd).
  change (attribute_of "preprocessor") with "_preprocessor" in Hd.
  unfold backbone, preprocessor, getattr_or_none. rewrite Hd. split.
  - by rewrite lookup_insert_eq.
  - intros Hk. rewrite lookup_insert_ne by done.
    rewrite (tracked_keeps self v s0 "_backbone" Hk Htr); [done|set_solver].
Qed.

Lemma assign_Raise self a e :
  assign self a = Raise e →
  ∃ s n v, keras_track s n v = Raise e.
Proof.
  destruct a as [v|v]; simpl; intros Hs.
  - pose proof (setattr_property self "backbone" v (or_introl eq_refl)) as Hsp.
    unfold set_backbone in Hs. rewrite Hs in Hsp.
    destruct Hsp as (s & n & Hr). by exists s, n, v.
  - pose proof (setattr_property self "preprocessor" v (or_intror eq_refl)) as Hsp.
    unfold set_preprocessor in Hs. rewrite Hs in Hsp.
    destruct Hsp as (s & n & Hr). by exists s, n, v.
Qed.

Lemma assign_all_Ok self l self' :
  keras_track_keeps →
  assign_all self l = Ok self' →
  backbone self' = default (backbone self) (last_backbone l)
  ∧ preprocessor self' = default (preprocessor self) (last_preprocessor l).
Proof.
  intros Hk. revert self. induction l as [|a l IH]; intros self Ha.
  - simpl in Ha. by injection Ha as <-.
  - change (assign_all self (a :: l)) with (assign self a ≫= λ s, assign_all s l) in Ha.
    destruct (assign self a) as [s1|e] eqn:Hs; [|done]. simpl in Ha.
    destruct (IH s1 Ha) as [Hb2 Hp2]. rewrite Hb2, Hp2. simpl.
    destruct a as [v|v]; simpl in Hs.
    + destruct (set_backbone_Ok _ _ _ Hs) as [Hb Hp]. rewrite Hb, (Hp Hk).
      by destruct (last_backbone l), (last_preprocessor l).
    + destruct (set_preprocessor_Ok _ _ _ Hs) as [Hp Hb]. rewrite Hp, (Hb Hk).
      by destruct (last_backbone l), (last_preprocessor l).
Qed.

Lemma assign_all_Raise self l e :
  assign_all self l = Raise e → ∃ s n v, keras_track s n v = Raise e.
Proof.
  revert self. induction l as [|a l IH]; intros self Ha; [done|].
  change (assign_all self (a :: l)) with (assign self a ≫= λ s, assign_all s l) in Ha.
  destruct (assign self a) as [s1|e'] eqn:Hs; simpl in Ha.
  - by apply (IH s1).
  - injection Ha as ->. by apply (assign_Raise self a).
Qed.

(** C10: on an instance whose [_backbone] (respectively [_preprocessor])
    attribute was never assigned, the property reads [None] and raises
    nothing.  An assignment to the property runs the property's setter on
    every route of [Task.__setattr__], and when it is through the property
    reads exactly the assigned value; after any sequence of assignments to
    the two properties, each reads the value last assigned to it (what it
    read before, when the sequence assigns nothing to it), keras's tracking
    leaving the private attributes alone.  An assignment can only fail with
    an exception of keras's tracking, and goes through when that raises
    nothing. *)
Theorem properties_read_last_assignment (self : fields) (l : list assignment) :
  (inst_dict self !! "_backbone" = None → backbone self = VNone)
  ∧ (inst_dict self !! "_preprocessor" = None → preprocessor self = VNone)
  ∧ (∀ v self', set_backbone self v = Ok self' → backbone self' = v)
  ∧ (∀ v self', set_preprocessor self v = Ok self' → preprocessor self' = v)
  ∧ (keras_track_keeps →
     ∀ self', assign_all self l = Ok self' →
              backbone self' = default (backbone self) (last_backbone l)
              ∧ preprocessor self' = default (preprocessor self) (last_preprocessor l))
  ∧ (∀ e, assign_all self l = Raise e → ∃ s n v, keras_track s n v = Raise e)
  ∧ (keras_track_total → ∃ self', assign_all self l = Ok self').
Proof.
  split; [|split; [|split; [|split; [|split; [|split]]]]].
  - intros Hnone. unfold backbone, getattr_or_none. by rewrite Hnone.
  - intros Hnone. unfold preprocessor, getattr_or_none. by rewrite Hnone.
  - intros v self' Hs. by apply (set_backbone_Ok self v self').
  - intros v self' Hs. by apply (set_preprocessor_Ok self v self').
  - intros Hk self' Ha. by apply assign_all_Ok.
  - intros e Ha. by apply (assign_all_Raise self l).
  - intros Htotal. destruct (assign_all self l) as [self'|e] eqn:Ha; [by eexists|].
    destruct (assign_all_Raise _ _ _ Ha) as (s & n & v & Hr).
    destruct (Htotal s n v) as [s' Hs']. congruence.
Qed.

End Properties.

Section Presets.
Context `{Collaborators}.

Lemma foldl_update_Some (g : Cls → option (gmap string Meta))
    (f : Cls → gmap string Meta) (l : list Cls) (acc : gmap string Meta) :
  (∀ s, s ∈ l → g s = Some (f s)) →
  foldl (λ acc subclass, acc ← acc; sub ← g subclass; Some (dict_update acc sub))
        (Some acc) l =
    Some (foldl (λ acc subclass, dict_update acc (f subclass)) acc l).
Proof.
  revert acc. induction l as [|s l IH]; intros acc Hg; [done|].
  simpl. rewrite (Hg s) by left. simpl. apply IH.
  intros s' Hs'. apply Hg. by right.
Qed.

Lemma dom_foldl_update (f : Cls → gmap string Meta) (l : list Cls)
    (acc : gmap string Meta) (k : string) :
  k ∈ dom (foldl (λ acc subclass, dict_update acc (f subclass)) acc l)
  ↔ k ∈ dom acc ∨ ∃ s, s ∈ l ∧ k ∈ dom (f s).
Proof.
  revert acc. induction l as [|s l IH]; intros acc; simpl.
  - split; [by left|]. intros [?|(s & Hs & _)]; [done|]. by apply elem_of_nil in Hs.
  - rewrite IH. unfold dict_update. rewrite dom_union_L, elem_of_union. split.
    + intros [[Hk|Hk]|(s' & Hs' & Hk)].
      * right. exists s. split; [by left|done].
      * by left.
      * right. exists s'. split; [by right|done].
    + intros [Hk|(s' & Hs' & Hk)].
      * left. by right.
      * apply elem_of_cons in Hs' as [->|Hs'].
        -- left. by left.
        -- right. by exists s'.
Qed.

Lemma lookup_foldl_update_None (f : Cls → gmap string Meta) (l : list Cls)
    (acc : gmap string Meta) (k : string) :
  (∀ s, s ∈ l → f s !! k = None) →
  foldl (λ acc subclass, dict_update acc (f subclass)) acc l !! k = acc !! k.
Proof.
  revert acc. induction l as [|s l IH]; intros acc Hnone; [done|].
  simpl. rewrite IH by (intros s' Hs'; apply Hnone; by right).
  unfold dict_update. rewrite lookup_union_r; [done|]. apply Hnone. by left.
Qed.

Lemma lookup_foldl_update_last (f : Cls → gmap string Meta) (l1 l2 : list Cls)
    (s : Cls) (acc : gmap string Meta) (k : string) (x : Meta) :
  f s !! k = Some x →
  (∀ s', s' ∈ l2 → f s' !! k = None) →
  foldl (λ acc subclass, dict_update acc (f subclass)) acc (l1 ++ s :: l2) !! k = Some x.
Proof.
  intros Hs Hnone. rewrite foldl_app. simpl.
  rewrite lookup_foldl_update_None by done.
  unfold dict_update. by apply lookup_union_Some_l.
Qed.

Lemma lookup_foldl_update_Some (f : Cls → gmap string Meta) (l : list Cls)
    (acc : gmap string Meta) (k : string) (x : Meta) :
  foldl (λ acc subclass, dict_update acc (f subclass)) acc l !! k = Some x →
  acc !! k = Some x ∨ ∃ s, s ∈ l ∧ f s !! k = Some x.
Proof.
  revert acc. induction l as [|s l IH]; intros acc Hk; [by left|].
  simpl in Hk. apply IH in Hk as [Hk|(s' & Hs' & Hk)].
  - unfold dict_update in Hk. apply lookup_union_Some_raw in Hk as [Hk|[_ Hk]].
    + right. exists s. split; [by left|done].
    + by left.
  - right. exists s'. split; [by right|done].
Qed.

Lemma presets_returns_unique height cls m1 m2 :
  presets_returns height cls m1 → presets_returns height cls m2 → m1 = m2.
Proof.
  intros Hm1 Hm2. specialize (Hm1 (S (height cls)) (Nat.lt_succ_diag_r _)).
  specialize (Hm2 (S (height cls)) (Nat.lt_succ_diag_r _)). congruence.
Qed.

Section Hierarchy.
Variable height : Cls → nat.
Hypothesis height_decreases : ∀ c d, d ∈ list_subclasses c → height d < height c.

(** One level of the recursion. *)
Lemma presets_one_level (cls : Cls) :
  ∃ m, presets_returns height cls m
       ∧ ∀ k, k ∈ dom m ↔
              declared_on cls k
              ∨ ∃ sub ms, sub ∈ list_subclasses cls
                          ∧ presets_returns height sub ms ∧ k ∈ dom ms.
Proof.
  remember (S (height cls)) as n eqn:Hn.
  assert (height cls < n) as Hlt by lia. clear Hn.
  revert cls Hlt. induction n as [|n IH]; intros cls Hlt; [lia|].
  set (f := λ s, default ∅ (presets (height cls) s)).
  set (base :=
         match backbone_cls cls with
         | Some b => dict_update (list_presets cls) (backbone_presets b)
         | None => list_presets cls
         end).
  assert (Hsub : ∀ s, s ∈ list_subclasses cls → presets_returns height s (f s)).
  { intros s Hs. pose proof (height_decreases _ _ Hs) as Hh.
    destruct (IH s) as (ms & Hms & _); [lia|].
    unfold f. by rewrite (Hms (height cls)). }
  exists (foldl (λ acc subclass, dict_update acc (f subclass)) base (list_subclasses cls)).
  split.
  - intros fuel Hfuel. destruct fuel as [|fuel]; [lia|]. simpl.
    apply foldl_update_Some. intros s Hs. apply (Hsub s Hs).
    pose proof (height_decreases _ _ Hs). lia.
  - intros k. rewrite dom_foldl_update.
    assert (k ∈ dom base ↔ declared_on cls k) as ->.
    { unfold base, declared_on, dict_update.
      destruct (backbone_cls cls) as [b|].
      - rewrite dom_union_L, elem_of_union. split.
        + intros [?|?]; [right; by exists b|by left].
        + intros [?|(b' & [= <-] & ?)]; [by right|by left].
      - split; [by left|]. by intros [?|(b' & [=] & ?)]. }
    split; (intros [?|Hk]; [by left|right]).
    + destruct Hk as (s & Hs & Hk). exists s, (f s). split; [done|]. split; [|done].
      by apply Hsub.
    + destruct Hk as (s & ms & Hs & Hms & Hk). exists s. split; [done|].
      by rewrite (presets_returns_unique height s (f s) ms) by (done || by apply Hsub).
Qed.

(** The recursion unrolled: the presets declared on [cls] and on every
    class reached from it through [list_subclasses]. *)
Lemma presets_closure (cls : Cls) (m : gmap string Meta) :
  presets_returns height cls m →
  ∀ k, k ∈ dom m ↔
       ∃ d, rtc (λ x y, x ∈ list_subclasses y) d cls ∧ declared_on d k.
Proof.
  remember (S (height cls)) as n eqn:Hn.
  assert (height cls < n) as Hlt by lia. clear Hn.
  revert cls m Hlt. induction n as [|n IH]; intros cls m Hlt Hm k; [lia|].
  destruct (presets_one_level cls) as (m' & Hm' & Hdom).
  rewrite (presets_returns_unique height cls m m') by done.
  rewrite Hdom. split.
  - intros [Hk|(sub & ms & Hs & Hms & Hk)].
    + by exists cls.
    + pose proof (height_decreases _ _ Hs).
      apply (IH sub ms) in Hk as (d & Hd & Hk); [|lia|done].
      exists d. split; [|done]. eapply rtc_r; [exact Hd|exact Hs].
  - intros (d & Hd & Hk). apply rtc_inv_r in Hd as [->|(y & Hd & Hy)]; [by left|].
    right. pose proof (height_decreases _ _ Hy).
    destruct (presets_one_level y) as (ms & Hms & _).
    exists y, ms. split; [done|]. split; [done|].
    apply (IH y ms); [lia|done|]. by exists d.
Qed.

(** [presets] as the fold of [dict.update] it is. *)
Lemma presets_fold_form (cls : Cls) :
  ∃ f, (∀ s, s ∈ list_subclasses cls → presets_returns height s (f s))
       ∧ presets_returns height cls
           (foldl (λ acc subclass, dict_update acc (f subclass))
                  (match backbone_cls cls with
                   | Some b => dict_update (list_presets cls) (backbone_presets b)
                   | None => list_presets cls
                   end)
                  (list_subclasses cls)).
Proof.
  exists (λ s, default ∅ (presets (height cls) s)).
  assert (∀ s, s ∈ list_subclasses cls →
               presets_returns height s (default ∅ (presets (height cls) s))) as Hsub.
  { intros s Hs. pose proof (height_decreases _ _ Hs) as Hh.
    destruct (presets_one_level s) as (ms & Hms & _).
    by rewrite (Hms (height cls)). }
  split; [done|].
  intros fuel Hfuel. destruct fuel as [|fuel]; [lia|]. simpl.
  apply foldl_update_Some. intros s Hs. apply (Hsub s Hs).
  pose proof (height_decreases _ _ Hs). lia.
Qed.

(** Where an entry of [presets] comes from. *)
Lemma presets_entries (cls : Cls) (m : gmap string Meta) (k : string) (x : Meta) :
  presets_returns height cls m →
  m !! k = Some x →
  list_presets cls !! k = Some x
  ∨ (∃ b, backbone_cls cls = Some b ∧ backbone_presets b !! k = Some x)
  ∨ ∃ sub ms, sub ∈ list_subclasses cls
              ∧ presets_returns height sub ms ∧ ms !! k = Some x.
Proof.
  intros Hm Hk. destruct (presets_fold_form cls) as (f & Hf & Hfold).
  rewrite (presets_returns_unique height cls m _ Hm Hfold) in Hk.
  apply lookup_foldl_update_Some in Hk as [Hk|(s & Hs & Hk)].
  - destruct (backbone_cls cls) as [b|]; [|by left].
    unfold dict_update in Hk. apply lookup_union_Some_raw in Hk as [Hk|[_ Hk]].
    + right. left. by exists b.
    + by left.
  - right. right. exists s, (f s). split; [done|]. split; [by apply Hf|done].
Qed.

(** The same, with the recursion unrolled. *)
Lemma presets_entries_closure (cls : Cls) (m : gmap string Meta) (k : string) (x : Meta) :
  presets_returns height cls m →
  m !! k = Some x →
  ∃ d, rtc (λ x y, x ∈ list_subclasses y) d cls
       ∧ (list_presets d !! k = Some x
          ∨ ∃ b, backbone_cls d = Some b ∧ backbone_presets b !! k = Some x).
Proof.
  remember (S (height cls)) as n eqn:Hn.
  assert (height cls < n) as Hlt by lia. clear Hn.
  revert cls m Hlt. induction n as [|n IH]; intros cls m Hlt Hm Hk; [lia|].
  destruct (presets_entries cls m k x Hm Hk) as [Hown|[Hb|(sub & ms & Hs & Hms & Hsub)]].
  - exists cls. split; [done|by left].
  - exists cls. split; [done|by right].
  - pose proof (height_decreases _ _ Hs).
    destruct (IH sub ms) as (d & Hd & Hdk); [lia|done|done|].
    exists d. split; [|done]. eapply rtc_r; [exact Hd|exact Hs].
Qed.

(** Which entry a name has: the class's own or its backbone's when no
    subclass lists the name, that of the last subclass listing it
    otherwise. *)
Lemma presets_lookup (cls : Cls) (m : gmap string Meta) (k : string) :
  presets_returns height cls m →
  ((∀ s ms, s ∈ list_subclasses cls → presets_returns height s ms → ms !! k = None) →
     m !! k =
       match backbone_cls cls with
       | Some b =>
         match backbone_presets b !! k with
         | Some x => Some x
         | None => list_presets cls !! k
         end
       | None => list_presets cls !! k
       end)
  ∧ (∀ l1 s l2 ms x,
       list_subclasses cls = l1 ++ s :: l2 →
       presets_returns height s ms →
       ms !! k = Some x →
       (∀ s' ms', s' ∈ l2 → presets_returns height s' ms' → ms' !! k = None) →
       m !! k = Some x).
Proof.
  intros Hm.
  destruct (presets_fold_form cls) as (f & Hf & Hfold).
  rewrite (presets_returns_unique height cls m _ Hm Hfold). split.
  - intros Hnone. rewrite lookup_foldl_update_None.
    + destruct (backbone_cls cls) as [b|]; [|done].
      unfold dict_update. rewrite lookup_union.
      destruct (backbone_presets b !! k), (list_presets cls !! k); done.
    + intros s Hs. by apply (Hnone s (f s) Hs), Hf.
  - intros l1 s l2 ms x Hl Hms Hx Hnone.
    assert (s ∈ list_subclasses cls) as Hs.
    { rewrite Hl. apply elem_of_app. right. by left. }
    rewrite Hl. apply lookup_foldl_update_last.
    + by rewrite (presets_returns_unique height s (f s) ms (Hf s Hs) Hms).
    + intros s' Hs'. apply (Hnone s' (f s') Hs'), Hf.
      rewrite Hl. apply elem_of_app. right. by right.
Qed.
End Hierarchy.

(** C7: in a class hierarchy ([height] bounds the depth below a class),
    [presets] returns a mapping, and a mapping has each key once.  Its keys
    are those of the presets declared on the class, those of the presets of
    its [backbone_cls] when that is set, and those of the [presets] of every
    known subclass; unrolled, the keys declared on the class or on any class
    reached from it through [list_subclasses].  Its entries are entries of
    these: every name it lists carries the metadata that the class itself,
    its backbone class or the [presets] of a known subclass gives the name,
    and so, unrolled, the metadata some class reached through
    [list_subclasses], or that class's backbone class, declares for it.
    Where several of them list a name, the later update wins: the last
    subclass of [list_subclasses] that lists it, the backbone class before
    the class itself when no subclass does. *)
Theorem presets_union (height : Cls → nat) (cls : Cls) :
  (∀ c d, d ∈ list_subclasses c → height d < height c) →
  ∃ m, presets_returns height cls m
       ∧ NoDup (map_to_list m).*1
       ∧ (∀ k, k ∈ dom m ↔
               k ∈ dom (list_presets cls)
               ∨ (∃ b, backbone_cls cls = Some b ∧ k ∈ dom (backbone_presets b))
               ∨ ∃ sub ms, sub ∈ list_subclasses cls
                           ∧ presets_returns height sub ms ∧ k ∈ dom ms)
       ∧ (∀ k, k ∈ dom m ↔
               ∃ d, rtc (λ x y, x ∈ list_subclasses y) d cls ∧ declared_on d k)
       ∧ (∀ k x, m !! k = Some x →
               list_presets cls !! k = Some x
               ∨ (∃ b, backbone_cls cls = Some b ∧ backbone_presets b !! k = Some x)
               ∨ ∃ sub ms, sub ∈ list_subclasses cls
                           ∧ presets_returns height sub ms ∧ ms !! k = Some x)
       ∧ (∀ k x, m !! k = Some x →
               ∃ d, rtc (λ x y, x ∈ list_subclasses y) d cls
                    ∧ (list_presets d !! k = Some x
                       ∨ ∃ b, backbone_cls d = Some b
                              ∧ backbone_presets b !! k = Some x))
       ∧ (∀ k,
            (∀ s ms, s ∈ list_subclasses cls → presets_returns height s ms →
                     ms !! k = None) →
            m !! k =
              match backbone_cls cls with
              | Some b =>
                match backbone_presets b !! k with
                | Some x => Some x
                | None => list_presets cls !! k
                end
              | None => list_presets cls !! k
              end)
       ∧ (∀ k l1 s l2 ms x,
            list_subclasses cls = l1 ++ s :: l2 →
            presets_returns height s ms →
            ms !! k = Some x →
            (∀ s' ms', s' ∈ l2 → presets_returns height s' ms' → ms' !! k = None) →
            m !! k = Some x).
Proof.
  intros Hh. destruct (presets_one_level height Hh cls) as (m & Hm & Hdom).
  exists m. split; [done|]. split; [apply NoDup_fst_map_to_list|].
  split; [|split; [|split; [|split; [|split]]]].
  - intros k. rewrite Hdom. unfold declared_on. tauto.
  - by apply (presets_closure height Hh).
  - intros k x. by apply (presets_entries height Hh).
  - intros k x. by apply (presets_entries_closure height Hh).
  - intros k. by apply (presets_lookup height Hh cls m k).
  - intros k. by apply (presets_lookup height Hh cls m k).
Qed.

End Presets.

(** ** The statements on the concrete runtime *)

Lemma from_preset_rejects_backbone_kwarg_witness :
  from_preset Sample.cBertClassifier "bert_base_en" true
    {[ "backbone" := Sample.model "bert_base_en" ]} =
    ([], Raise (ValueError
       (msg_backbone_kwarg Sample.cBertClassifier (Sample.model "bert_base_en"))))
  ∧ msg_backbone_kwarg Sample.cBertClassifier (Sample.model "bert_base_en") =
      "You cannot pass a `backbone` argument to the `from_preset` method. Instead, call the BertClassifier default constructor with a `backbone` argument. Received: backbone=<model:bert_base_en>.".
Proof.
  apply (@from_preset_rejects_backbone_kwarg _ _ Sample.collaborators
           Sample.cBertClassifier "bert_base_en" true
           {[ "backbone" := Sample.model "bert_base_en" ]}
           (Sample.model "bert_base_en")).
  - discriminate.
  - reflexivity.
Defined.

Lemma from_preset_type_mismatch_witness :
  from_preset Sample.cXLMRobertaClassifier "./my_bert_classifier" true ∅ =
    ([CheckConfigClass "./my_bert_classifier"],
     Raise (ValueError
       (msg_not_subclass Sample.cXLMRobertaClassifier Sample.cBertClassifier)))
  ∧ msg_not_subclass Sample.cXLMRobertaClassifier Sample.cBertClassifier =
      "Preset has type `BertClassifier` which is not a a subclass of calling class `XLMRobertaClassifier`. Call `from_preset` directly on `BertClassifier` instead.".
Proof.
  apply (@from_preset_type_mismatch _ _ Sample.collaborators
           Sample.cXLMRobertaClassifier "./my_bert_classifier" true ∅
           Sample.cBertClassifier).
  - discriminate.
  - reflexivity.
  - reflexivity.
  - reflexivity.
  - reflexivity.
Defined.

(** C6 as stated fails: the preset declares [BertClassifier], a task type
    that is neither [XLMRobertaClassifier] nor below it, yet with a
    [backbone] keyword argument the call stops at the guard on [backbone]
    and raises that usage error, not the type-mismatch error; the preset is
    not even looked at. *)
Lemma from_preset_type_mismatch_counterexample :
  Sample.cXLMRobertaClassifier ≠ Task
  ∧ check_config_class "./my_bert_classifier" = Ok Sample.cBertClassifier
  ∧ issubclass Sample.cBertClassifier Backbone = false
  ∧ issubclass Sample.cBertClassifier Sample.cXLMRobertaClassifier = false
  ∧ from_preset Sample.cXLMRobertaClassifier "./my_bert_classifier" true
      {[ "backbone" := VNone ]} =
      ([], Raise (ValueError
         (msg_backbone_kwarg Sample.cXLMRobertaClassifier VNone)))
  ∧ from_preset Sample.cXLMRobertaClassifier "./my_bert_classifier" true
      {[ "backbone" := VNone ]} ≠
      ([CheckConfigClass "./my_bert_classifier"],
       Raise (ValueError
         (msg_not_subclass Sample.cXLMRobertaClassifier Sample.cBertClassifier))).
Proof.
  split; [discriminate|].
  repeat (split; [reflexivity|]).
  discriminate.
Qed.

Lemma from_preset_resolves_subclass_witness :
  result_of (from_preset Sample.cClassifier "xlm_roberta_base_multi" true ∅) =
    Ok (Built {| type_of := Sample.cXLMRobertaClassifier;
                 self_of :=
                   {| inst_dict :=
                        <["_backbone" := Sample.model "xlm_roberta_base_multi"]>
                          (<["_preprocessor" :=
                               VObj (Sample.Preprocessor Sample.cXLMRobertaPreprocessor
                                       "xlm_roberta_base_multi")]>
                             (<["activation" := VNone]>
                                {["_initialized" := VBool true]}));
                      inst_name := "task";
                      inst_layers :=
                        [Sample.LoadedModel "xlm_roberta_base_multi";
                         Sample.Preprocessor Sample.cXLMRobertaPreprocessor
                           "xlm_roberta_base_multi";
                         Sample.Layer "logits"] |} |}).
Proof.
  eapply (@from_preset_resolves_subclass _ _ Sample.collaborators Sample.cClassifier "xlm_roberta_base_multi" true ∅
            Sample.cXLMRobertaBackbone).
  - discriminate.
  - reflexivity.
  - reflexivity.
  - reflexivity.
  - discriminate.
  - reflexivity.
  - reflexivity.
  - reflexivity.
  - reflexivity.
Defined.

(** C1 as stated fails: [Classifier] has exactly one known subclass for the
    backbone class of the preset, [XLMRobertaClassifier], yet with a
    [backbone] keyword argument the call raises the usage error of the guard
    on [backbone] and returns no instance at all. *)
Lemma from_preset_resolves_subclass_counterexample :
  Sample.cClassifier ≠ Task
  ∧ check_config_class "xlm_roberta_base_multi" = Ok Sample.cXLMRobertaBackbone
  ∧ issubclass Sample.cXLMRobertaBackbone Backbone = true
  ∧ backbone_cls Sample.cClassifier ≠ Some Sample.cXLMRobertaBackbone
  ∧ matching_subclasses Sample.cClassifier Sample.cXLMRobertaBackbone =
      [Sample.cXLMRobertaClassifier]
  ∧ from_preset Sample.cClassifier "xlm_roberta_base_multi" true
      {[ "backbone" := Sample.model "xlm_roberta_base_multi" ]} =
      ([], Raise (ValueError
         (msg_backbone_kwarg Sample.cClassifier
            (Sample.model "xlm_roberta_base_multi"))))
  ∧ ¬ ∃ i, result_of
             (from_preset Sample.cClassifier "xlm_roberta_base_multi" true
                {[ "backbone" := Sample.model "xlm_roberta_base_multi" ]}) =
           Ok (Built i).
Proof.
  split; [discriminate|].
  do 2 (split; [reflexivity|]).
  split; [discriminate|].
  do 2 (split; [reflexivity|]).
  intros [i Hi]. discriminate Hi.
Qed.

Lemma compile_loss_mismatch_witness :
  compile (Sample.bert_classifier (Sample.bert_task (VStr "softmax")))
          (VStr "rmsprop")
          (LossSingle (VStr "SparseCategoricalCrossentropy(from_logits=True)")) ∅ =
    Raise (ValueError msg_expects_logits).
Proof.
  refine (proj1 (proj1 (@compile_loss_mismatch _ _ Sample.collaborators
                          (Sample.bert_classifier (Sample.bert_task (VStr "softmax")))
                          (VStr "rmsprop") ∅)
                   (VStr "SparseCategoricalCrossentropy(from_logits=True)")
                   (VStr "softmax") _ _) _ _);
    (discriminate || reflexivity).
Defined.

(** A loss that is not sparse categorical crossentropy, on a task whose
    [activation] keras cannot resolve: the check is not skipped, [compile]
    raises the error of [keras.activations.get]. *)
Lemma compile_loss_mismatch_counterexample :
  (∀ c, VStr "mse" ≠ VConfig c)
  ∧ keras_losses_get (VStr "mse") = Ok (OtherLoss "mean_squared_error")
  ∧ inst_dict (Sample.bert_task (VStr "softmx")) !! "activation" = Some (VStr "softmx")
  ∧ _check_for_loss_mismatch (Sample.bert_task (VStr "softmx"))
      (LossSingle (VStr "mse")) =
      Raise (ValueError "Could not interpret activation function identifier: softmx")
  ∧ compile (Sample.bert_classifier (Sample.bert_task (VStr "softmx")))
      (VStr "rmsprop") (LossSingle (VStr "mse")) ∅ =
      Raise (ValueError "Could not interpret activation function identifier: softmx")
  ∧ _check_for_loss_mismatch (Sample.bert_task (VStr "softmx"))
      (LossSingle (VStr "mse")) ≠ Ok ().
Proof.
  split; [discriminate|].
  do 4 (split; [reflexivity|]).
  discriminate.
Qed.

Lemma preprocess_samples_delegates_witness :
  preprocess_samples (Sample.bert_task VNone) (VStr "hello") VNone VNone =
    call_layer Sample.bert_preprocessor (VStr "hello") VNone VNone
  ∧ preprocess_samples Sample.bare_task (VStr "hello") VNone VNone =
      Ok (VStr "hello", VNone, VNone).
Proof.
  split.
  - apply (proj1 (proj2 (@preprocess_samples_delegates _ _ Sample.collaborators
                           (Sample.bert_task VNone) (VStr "hello") VNone VNone))).
    reflexivity.
  - apply (proj2 (proj2 (@preprocess_samples_delegates _ _ Sample.collaborators
                           Sample.bare_task (VStr "hello") VNone VNone))).
    reflexivity.
Defined.

Lemma config_round_trip_witness :
  from_config Sample.cBertClassifier (get_config (Sample.bert_task VNone)) =
    Ok (Sample.bert_classifier Sample.bert_task_restored)
  ∧ get_config Sample.bert_task_restored = get_config (Sample.bert_task VNone).
Proof.
  apply (proj2 (proj2 (proj2 (proj2 (proj2
           (@config_round_trip _ _ Sample.collaborators
              Sample.cBertClassifier (Sample.bert_task VNone))))))
           (Sample.as_value (Sample.Restored "model:bert_base_en"))
           (Sample.as_value (Sample.Restored "preprocessor:BertPreprocessor:bert_base_en")));
    reflexivity.
Defined.

Lemma layers_removes_preprocessor_witness :
  (∃ l1 l2 : list Sample.obj,
     inst_layers (Sample.bert_task VNone) = l1 ++ (Sample.bert_preprocessor :: l2)
     ∧ (Sample.bert_preprocessor ∉ l1)
     ∧ layers (Sample.bert_task VNone) = Ok (l1 ++ l2)
     ∧ filter (λ x, x ≠ Sample.bert_preprocessor) (l1 ++ l2) =
         filter (λ x, x ≠ Sample.bert_preprocessor) (inst_layers (Sample.bert_task VNone))
     ∧ (NoDup (inst_layers (Sample.bert_task VNone)) →
        (Sample.bert_preprocessor ∉ l1 ++ l2)
        ∧ l1 ++ l2 =
            filter (λ x, x ≠ Sample.bert_preprocessor)
                   (inst_layers (Sample.bert_task VNone))))
  ∧ layers Sample.bare_task = Ok (inst_layers Sample.bare_task).
Proof.
  split.
  - apply (proj1 (@layers_removes_preprocessor Sample.objects
                    (Sample.bert_task VNone)) Sample.bert_preprocessor).
    + reflexivity.
    + apply list_elem_of_In. right. left. reflexivity.
  - apply (proj2 (@layers_removes_preprocessor Sample.objects Sample.bare_task)).
    intros p Hp. discriminate Hp.
Defined.

Lemma properties_read_last_assignment_witness :
  ∃ self',
    assign_all Sample.bare_task
      [AssignBackbone (Sample.model "bert_base_en");
       AssignPreprocessor (Sample.as_value Sample.bert_preprocessor);
       AssignBackbone (Sample.model "xlm_roberta_base_multi")] = Ok self'
    ∧ backbone self' = Sample.model "xlm_roberta_base_multi"
    ∧ preprocessor self' = Sample.as_value Sample.bert_preprocessor.
Proof.
  destruct (@properties_read_last_assignment _ _ Sample.collaborators Sample.bare_task
              [AssignBackbone (Sample.model "bert_base_en");
               AssignPreprocessor (Sample.as_value Sample.bert_preprocessor);
               AssignBackbone (Sample.model "xlm_roberta_base_multi")])
    as (_ & _ & _ & _ & Hseq & _ & Htotal).
  destruct Htotal as [self' Ha].
  { intros self name v. exists self. reflexivity. }
  exists self'. split; [exact Ha|].
  apply Hseq; [|exact Ha].
  intros self s1 name v k [= <-] Hk. reflexivity.
Defined.

Lemma sample_height_decreases :
  ∀ c d : Sample.cls, d ∈ Sample.subclasses_of c → Sample.height d < Sample.height c.
Proof.
  intros c d Hd. apply list_elem_of_In in Hd.
  destruct c; vm_compute in Hd; intuition subst; vm_compute; lia.
Defined.

Lemma presets_union_witness :
  ∃ m, presets_returns Sample.height Sample.cClassifier m
       ∧ NoDup (map_to_list m).*1
       ∧ (∀ k, k ∈ dom m ↔
               k ∈ dom (list_presets Sample.cClassifier)
               ∨ (∃ b, backbone_cls Sample.cClassifier = Some b ∧ k ∈ dom (backbone_presets b))
               ∨ ∃ sub ms, sub ∈ list_subclasses Sample.cClassifier
                           ∧ presets_returns Sample.height sub ms ∧ k ∈ dom ms)
       ∧ (∀ k, k ∈ dom m ↔
               ∃ d, rtc (λ x y, x ∈ list_subclasses y) d Sample.cClassifier ∧ declared_on d k)
       ∧ (∀ k x, m !! k = Some x →
               list_presets Sample.cClassifier !! k = Some x
               ∨ (∃ b, backbone_cls Sample.cClassifier = Some b ∧ backbone_presets b !! k = Some x)
               ∨ ∃ sub ms, sub ∈ list_subclasses Sample.cClassifier
                           ∧ presets_returns Sample.height sub ms ∧ ms !! k = Some x)
       ∧ (∀ k x, m !! k = Some x →
               ∃ d, rtc (λ x y, x ∈ list_subclasses y) d Sample.cClassifier
                    ∧ (list_presets d !! k = Some x
                       ∨ ∃ b, backbone_cls d = Some b
                              ∧ backbone_presets b !! k = Some x))
       ∧ (∀ k,
            (∀ s ms, s ∈ list_subclasses Sample.cClassifier → presets_returns Sample.height s ms →
                     ms !! k = None) →
            m !! k =
              match backbone_cls Sample.cClassifier with
              | Some b =>
                match backbone_presets b !! k with
                | Some x => Some x
                | None => list_presets Sample.cClassifier !! k
                end
              | None => list_presets Sample.cClassifier !! k
              end)
       ∧ (∀ k l1 s l2 ms x,
            list_subclasses Sample.cClassifier = l1 ++ s :: l2 →
            presets_returns Sample.height s ms →
            ms !! k = Some x →
            (∀ s' ms', s' ∈ l2 → presets_returns Sample.height s' ms' → ms' !! k = None) →
            m !! k = Some x).
Proof.
  apply (@presets_union _ _ Sample.collaborators Sample.height Sample.cClassifier).
  exact sample_height_decreases.
Defined.

(** ** The model run on the concrete runtime *)

Example from_preset_ambiguous :
  from_preset Sample.cClassifier "bert_base_en" true ∅ =
    ([CheckConfigClass "bert_base_en"],
     Raise (ValueError "Ambiguous call to `Classifier.from_preset()`. Found multiple possible subclasses `BertClassifier`, `TinyBertClassifier`. Please call `from_preset` on a subclass directly.")).
Proof. reflexivity. Qed.

Example from_preset_no_subclass :
  from_preset Sample.cClassifier "gemma_2b_en" true ∅ =
    ([CheckConfigClass "gemma_2b_en"],
     Raise (ValueError "No registered subclass of `Classifier` can load a `GemmaBackbone`.")).
Proof. reflexivity. Qed.

Example from_preset_own_backbone :
  result_of (from_preset Sample.cBertClassifier "bert_base_en" true
               {[ "dtype" := VStr "bfloat16" ]}) =
    Ok (Built (Sample.bert_classifier
                 (Sample.fields_of (Sample.LoadedModel "bert_base_en")
                    (Sample.as_value Sample.bert_preprocessor) VNone "task")))
  ∧ trace_of (from_preset Sample.cBertClassifier "bert_base_en" true
                {[ "dtype" := VStr "bfloat16" ]}) =
      [CheckConfigClass "bert_base_en";
       LoadFromPreset {| lp_preset := "bert_base_en";
                         lp_load_weights := Some true;
                         lp_config_file := None;
                         lp_config_overrides := Some {[ "dtype" := VStr "bfloat16" ]} |};
       LoadFromPreset {| lp_preset := "bert_base_en";
                         lp_load_weights := None;
                         lp_config_file := Some "tokenizer.json";
                         lp_config_overrides := None |}].
Proof. split; reflexivity. Qed.

Example from_preset_task_preset :
  from_preset Sample.cClassifier "./my_bert_classifier" false ∅ =
    ([CheckConfigClass "./my_bert_classifier";
      LoadFromPreset {| lp_preset := "./my_bert_classifier";
                        lp_load_weights := Some false;
                        lp_config_file := None;
                        lp_config_overrides := Some ∅ |}],
     Ok (Loaded (Sample.LoadedModel "./my_bert_classifier"))).
Proof. reflexivity. Qed.

Example presets_of_Classifier :
  dom <$> presets 3 Sample.cClassifier =
    Some ({[ "bert_tiny_en_uncased_sst2"; "bert_base_en"; "bert_tiny_en_uncased";
             "xlm_roberta_base_multi" ]} : gset string).
Proof. vm_compute. reflexivity. Qed.

Example presets_out_of_fuel : presets 1 Sample.cClassifier = None.
Proof. reflexivity. Qed.

Example compile_linear_mismatch :
  compile (Sample.bert_classifier (Sample.bert_task VNone)) (VStr "rmsprop")
          (LossSingle (VStr "sparse_categorical_crossentropy")) ∅ =
    Raise (ValueError msg_expects_softmax).
Proof. reflexivity. Qed.

Example compile_matching :
  compile (Sample.bert_classifier (Sample.bert_task VNone)) (VStr "rmsprop")
          (LossSingle (VStr "SparseCategoricalCrossentropy(from_logits=True)")) ∅ =
    Ok (Sample.bert_classifier
          (Sample.store (Sample.bert_task VNone) "compiled" (VBool true))).
Proof. reflexivity. Qed.

Example layers_with_repeated_preprocessor :
  layers {| inst_dict := {[ "_preprocessor" := Sample.as_value Sample.bert_preprocessor ]};
            inst_name := "classifier";
            inst_layers := [Sample.bert_preprocessor; Sample.Layer "logits";
                            Sample.bert_preprocessor] |} =
    Ok [Sample.Layer "logits"; Sample.bert_preprocessor].
Proof. reflexivity. Qed.

Example assignments_in_turn :
  (self ← assign_all Sample.bare_task
            [AssignBackbone (Sample.model "bert_base_en");
             AssignPreprocessor (Sample.as_value Sample.bert_preprocessor);
             AssignBackbone (Sample.model "xlm_roberta_base_multi")];
   Ok (backbone self, preprocessor self)) =
    Ok (Sample.model "xlm_roberta_base_multi", Sample.as_value Sample.bert_preprocessor).
Proof. reflexivity. Qed.

(** On the torch backend an initialized task holds its backbone as a child
    module, and torch refuses a string in its place: the assignment raises
    and the property is not written. *)
Example assignment_refused_on_torch :
  @set_backbone _ _ SampleTorch.collaborators Sample.bare_task (VStr "bert") =
    Raise (TypeError "cannot assign 'str' as child module '_backbone' (torch.nn.Module or None expected)")
  ∧ @set_backbone _ _ SampleTorch.collaborators Sample.bare_task
      (Sample.model "xlm_roberta_base_multi") =
      Ok (dict_setattr Sample.bare_task "_backbone" (Sample.model "xlm_roberta_base_multi")).
Proof. split; reflexivity. Qed.

(** * Further properties of [from_preset] *)

Section FromPresetPaths.
Context `{Collaborators}.

Lemma trace_of_bind {A B} (m : M A) (k : A → M B) :
  trace_of (bind m k) =
    trace_of m ++ match result_of m with Ok a => trace_of (k a) | Raise _ => [] end.
Proof.
  destruct m as [tr [a|e]]; simpl; [by destruct (k a)|by rewrite app_nil_r].
Qed.

Lemma M_eta {A} (m : M A) : m = (trace_of m, result_of m).
Proof. by destruct m. Qed.

Lemma get_preprocessor_result cls preset kwargs :
  result_of (get_preprocessor cls preset kwargs) =
    match kwargs !! "preprocessor" with
    | Some p => Ok (p, delete "preprocessor" kwargs)
    | None =>
      match load_from_preset (tokenizer_load_args preset) with
      | Raise e => Raise e
      | Ok tokenizer =>
        match preprocessor_cls cls with
        | Some pc =>
          match new_preprocessor pc
                  ({[ "tokenizer" := VObj tokenizer ]} : gmap string value) with
          | Ok p => Ok (VObj p, kwargs)
          | Raise e => Raise e
          end
        | None => Raise (TypeError "'NoneType' object is not callable")
        end
      end
    end.
Proof.
  unfold get_preprocessor, tokenizer_load_args.
  destruct (kwargs !! "preprocessor") as [p|]; [done|].
  rewrite result_of_bind, result_of_call.
  destruct (load_from_preset _) as [t|e]; simpl; [|done].
  destruct (preprocessor_cls cls) as [pc|]; [|done].
  by destruct (new_preprocessor pc _).
Qed.

Lemma get_preprocessor_trace cls preset kwargs :
  trace_of (get_preprocessor cls preset kwargs) =
    match kwargs !! "preprocessor" with
    | Some _ => []
    | None => [LoadFromPreset (tokenizer_load_args preset)]
    end.
Proof.
  unfold get_preprocessor, tokenizer_load_args.
  destruct (kwargs !! "preprocessor") as [p|]; [done|].
  rewrite trace_of_bind, result_of_call. simpl.
  destruct (load_from_preset _) as [t|e]; simpl; [|done].
  destruct (preprocessor_cls cls) as [pc|]; [|done].
  by destruct (new_preprocessor pc _).
Qed.

(** What is left of [kwargs] once the preprocessor is found. *)
Lemma get_preprocessor_kwargs cls preset kwargs p kw :
  result_of (get_preprocessor cls preset kwargs) = Ok (p, kw) →
  kw = delete "preprocessor" kwargs.
Proof.
  rewrite get_preprocessor_result.
  destruct (kwargs !! "preprocessor") as [p'|] eqn:Hp; [by intros [= _ <-]|].
  destruct (load_from_preset _) as [t|e]; simpl; [|done].
  destruct (preprocessor_cls cls) as [pc|]; [|done].
  destruct (new_preprocessor pc _); simpl; [|done].
  intros [= _ <-]. by rewrite delete_id.
Qed.

(** [build_from_backbone] with the two [pop]s written as deletions. *)
Lemma build_from_backbone_result cls preset load_weights kwargs :
  result_of (build_from_backbone cls preset load_weights kwargs) =
    (b ← load_from_preset (backbone_load_args preset load_weights kwargs);
     pk ← result_of (get_preprocessor cls preset (delete "dtype" kwargs));
     constructed cls (constructor_kwargs b pk.1 kwargs)).
Proof.
  unfold build_from_backbone, backbone_load_args, constructed.
  destruct (kwargs !! "dtype") as [d|] eqn:Hd; cbv beta iota zeta;
    rewrite ?(delete_id kwargs "dtype") by done;
    rewrite result_of_bind, result_of_call;
    (destruct (load_from_preset _) as [b|e]; simpl; [|done]);
    rewrite result_of_bind;
    (match goal with |- context [get_preprocessor ?c ?p ?k] =>
       pose proof (get_preprocessor_kwargs c p k) as Hkw;
       destruct (result_of (get_preprocessor c p k)) as [[pp kw]|e1] end;
     simpl; [|done]);
    rewrite (Hkw pp kw eq_refl); unfold constructor_kwargs;
    rewrite ?(delete_id kwargs "dtype") by done;
    by destruct (construct cls _).
Qed.

Lemma build_from_backbone_trace cls preset load_weights kwargs :
  trace_of (build_from_backbone cls preset load_weights kwargs) =
    LoadFromPreset (backbone_load_args preset load_weights kwargs)
      :: match load_from_preset (backbone_load_args preset load_weights kwargs) with
         | Ok _ => trace_of (get_preprocessor cls preset (delete "dtype" kwargs))
         | Raise _ => []
         end.
Proof.
  unfold build_from_backbone, backbone_load_args.
  destruct (kwargs !! "dtype") as [d|] eqn:Hd; cbv beta iota zeta;
    rewrite ?(delete_id kwargs "dtype") by done;
    rewrite trace_of_bind, result_of_call; simpl; f_equal;
    (destruct (load_from_preset _) as [b|e]; [|done]);
    rewrite trace_of_bind;
    (match goal with |- context [result_of (get_preprocessor ?c ?p ?k)] =>
       destruct (result_of (get_preprocessor c p k)) as [[pp kw]|e1] end;
     [|by rewrite app_nil_r]);
    by destruct (construct cls _); rewrite app_nil_r.
Qed.

End FromPresetPaths.

Section FromPresetMore.
Context `{Collaborators}.

Lemma from_preset_check_raises cls preset load_weights kwargs e :
  cls ≠ Task → kwargs !! "backbone" = None →
  check_config_class preset = Raise e →
  from_preset cls preset load_weights kwargs = ([CheckConfigClass preset], Raise e).
Proof.
  intros Hcls Hb He. unfold from_preset. rewrite decide_False by done.
  rewrite Hb, He. reflexivity.
Qed.

Lemma from_preset_resolve_raises cls preset load_weights kwargs pc e :
  cls ≠ Task → kwargs !! "backbone" = None →
  check_config_class preset = Ok pc →
  issubclass pc Backbone = true →
  resolve_cls cls pc = Raise e →
  from_preset cls preset load_weights kwargs = ([CheckConfigClass preset], Raise e).
Proof.
  intros Hcls Hb Hpc Hbb He. unfold from_preset. rewrite decide_False by done.
  rewrite Hb, Hpc. unfold call, bind. by rewrite Hbb, He.
Qed.

Lemma from_preset_backbone_path cls preset load_weights kwargs pc c :
  cls ≠ Task → kwargs !! "backbone" = None →
  check_config_class preset = Ok pc →
  issubclass pc Backbone = true →
  resolve_cls cls pc = Ok c →
  from_preset cls preset load_weights kwargs =
    (CheckConfigClass preset :: trace_of (build_from_backbone c preset load_weights kwargs),
     result_of (build_from_backbone c preset load_weights kwargs)).
Proof.
  intros Hcls Hb Hpc Hbb Hc. unfold from_preset. rewrite decide_False by done.
  rewrite Hb, Hpc. unfold call, bind. rewrite Hbb, Hc.
  by destruct (build_from_backbone c preset load_weights kwargs).
Qed.

Lemma from_preset_not_subclass cls preset load_weights kwargs pc :
  cls ≠ Task → kwargs !! "backbone" = None →
  check_config_class preset = Ok pc →
  issubclass pc Backbone = false →
  issubclass pc cls = false →
  from_preset cls preset load_weights kwargs =
    ([CheckConfigClass preset], Raise (ValueError (msg_not_subclass cls pc))).
Proof.
  intros Hcls Hb Hpc Hbb Hsub. unfold from_preset. rewrite decide_False by done.
  rewrite Hb, Hpc. unfold call, bind. by rewrite Hbb, Hsub.
Qed.

Lemma from_preset_task_path cls preset load_weights kwargs pc :
  cls ≠ Task → kwargs !! "backbone" = None →
  check_config_class preset = Ok pc →
  issubclass pc Backbone = false →
  issubclass pc cls = true →
  from_preset cls preset load_weights kwargs =
    ([CheckConfigClass preset; LoadFromPreset (task_load_args preset load_weights kwargs)],
     match load_from_preset (task_load_args preset load_weights kwargs) with
     | Ok o => Ok (Loaded o)
     | Raise e => Raise e
     end).
Proof.
  intros Hcls Hb Hpc Hbb Hsub. unfold from_preset. rewrite decide_False by done.
  rewrite Hb, Hpc. unfold call, bind, task_load_args. rewrite Hbb, Hsub. simpl.
  by destruct (load_from_preset _).
Qed.

(** The class the backbone path settles on declares the backbone class of
    the preset, and is the calling class or one of its known subclasses. *)
Lemma resolve_cls_Ok cls pc c :
  resolve_cls cls pc = Ok c →
  backbone_cls c = Some pc ∧ (c = cls ∨ c ∈ list_subclasses cls).
Proof.
  unfold resolve_cls. destruct (decide (backbone_cls cls = Some pc)) as [Heq|Hne].
  - intros [= <-]. split; [done|by left].
  - repeat case_decide; try done.
    destruct (matching_subclasses cls pc !! 0%nat) as [c'|] eqn:Hl; [|done].
    intros [= <-]. apply list_elem_of_lookup_2 in Hl.
    apply list_elem_of_filter in Hl as [Hb Hin]. split; [done|by right].
Qed.

(** X1: when the backbone class of the preset is the calling class's own
    [backbone_cls], the subclasses are not searched: the call is the
    backbone path of the calling class itself, and what it returns is an
    instance of the calling class, also when subclasses declare the same
    backbone class. *)
Theorem from_preset_own_backbone_cls (cls : Cls) (preset : string)
    (load_weights : bool) (kwargs : gmap string value) (preset_cls : Cls) :
  cls ≠ Task →
  kwargs !! "backbone" = None →
  check_config_class preset = Ok preset_cls →
  issubclass preset_cls Backbone = true →
  backbone_cls cls = Some preset_cls →
  from_preset cls preset load_weights kwargs =
    (CheckConfigClass preset :: trace_of (build_from_backbone cls preset load_weights kwargs),
     result_of (build_from_backbone cls preset load_weights kwargs))
  ∧ ∀ o, result_of (from_preset cls preset load_weights kwargs) = Ok o →
         ∃ st, o = Built {| type_of := cls; self_of := st |}.
Proof.
  intros Hcls Hb Hpc Hbb Hown.
  assert (resolve_cls cls preset_cls = Ok cls) as Hres.
  { unfold resolve_cls. by rewrite decide_True. }
  rewrite (from_preset_backbone_path _ _ _ _ _ _ Hcls Hb Hpc Hbb Hres).
  split; [done|]. intros o Ho. by apply (build_from_backbone_type cls preset load_weights kwargs).
Qed.

(** X2: [from_preset] returns only past both guards and with a preset whose
    class could be read.  For a backbone preset the result is an instance
    built here, of a class that declares that backbone class and is the
    calling class or a known subclass of it; for a task preset, of a class
    that is the calling class or below it, the result is the object the
    loader returned. *)
Theorem from_preset_returns (cls : Cls) (preset : string)
    (load_weights : bool) (kwargs : gmap string value) (o : outcome) :
  result_of (from_preset cls preset load_weights kwargs) = Ok o →
  cls ≠ Task
  ∧ kwargs !! "backbone" = None
  ∧ ∃ preset_cls,
      check_config_class preset = Ok preset_cls
      ∧ ((issubclass preset_cls Backbone = true
          ∧ ∃ i, o = Built i
                 ∧ backbone_cls (type_of i) = Some preset_cls
                 ∧ (type_of i = cls ∨ type_of i ∈ list_subclasses cls))
         ∨ (issubclass preset_cls Backbone = false
            ∧ issubclass preset_cls cls = true
            ∧ ∃ ob, o = Loaded ob
                    ∧ load_from_preset (task_load_args preset load_weights kwargs) = Ok ob)).
Proof.
  intros Ho.
  destruct (decide (cls = Task)) as [->|Hcls].
  { unfold from_preset in Ho. by rewrite decide_True in Ho. }
  destruct (kwargs !! "backbone") as [b|] eqn:Hb.
  { unfold from_preset in Ho. rewrite decide_False, Hb in Ho by done. done. }
  split; [done|]. split; [done|].
  destruct (check_config_class preset) as [pc|e] eqn:Hpc.
  2:{ by rewrite (from_preset_check_raises _ _ _ _ e) in Ho. }
  exists pc. split; [done|].
  destruct (issubclass pc Backbone) eqn:Hbb.
  - left. split; [done|].
    destruct (resolve_cls cls pc) as [c|e] eqn:Hres.
    2:{ by rewrite (from_preset_resolve_raises _ _ _ _ pc e) in Ho. }
    rewrite (from_preset_backbone_path _ _ _ _ pc c) in Ho by done.
    apply build_from_backbone_type in Ho as [st ->].
    eexists. split; [done|]. simpl. by apply resolve_cls_Ok.
  - right. split; [done|].
    destruct (issubclass pc cls) eqn:Hsub.
    2:{ by rewrite (from_preset_not_subclass _ _ _ _ pc) in Ho. }
    split; [done|].
    rewrite (from_preset_task_path _ _ _ _ pc) in Ho by done. simpl in Ho.
    destruct (load_from_preset _) as [ob|e]; [|done].
    injection Ho as <-. by exists ob.
Qed.

End FromPresetMore.

Section FromPresetArguments.
Context `{Collaborators}.

(** A result built here comes from the backbone path of some class. *)
Lemma from_preset_Built_inv cls preset load_weights kwargs i :
  result_of (from_preset cls preset load_weights kwargs) = Ok (Built i) →
  ∃ pc c, cls ≠ Task ∧ kwargs !! "backbone" = None
          ∧ check_config_class preset = Ok pc
          ∧ issubclass pc Backbone = true
          ∧ resolve_cls cls pc = Ok c
          ∧ result_of (build_from_backbone c preset load_weights kwargs) = Ok (Built i).
Proof.
  intros Ho.
  destruct (decide (cls = Task)) as [->|Hcls].
  { unfold from_preset in Ho. by rewrite decide_True in Ho. }
  destruct (kwargs !! "backbone") as [b|] eqn:Hb.
  { unfold from_preset in Ho. rewrite decide_False, Hb in Ho by done. done. }
  destruct (check_config_class preset) as [pc|e] eqn:Hpc.
  2:{ by rewrite (from_preset_check_raises _ _ _ _ e) in Ho. }
  destruct (issubclass pc Backbone) eqn:Hbb.
  - destruct (resolve_cls cls pc) as [c|e] eqn:Hres.
    2:{ by rewrite (from_preset_resolve_raises _ _ _ _ pc e) in Ho. }
    rewrite (from_preset_backbone_path _ _ _ _ pc c) in Ho by done.
    by exists pc, c.
  - destruct (issubclass pc cls) eqn:Hsub.
    2:{ by rewrite (from_preset_not_subclass _ _ _ _ pc) in Ho. }
    rewrite (from_preset_task_path _ _ _ _ pc) in Ho by done. simpl in Ho.
    by destruct (load_from_preset _).
Qed.

Lemma constructor_kwargs_lookup b p (kwargs : gmap string value) :
  constructor_kwargs b p kwargs !! "backbone" = Some (VObj b)
  ∧ constructor_kwargs b p kwargs !! "preprocessor" = Some p
  ∧ constructor_kwargs b p kwargs !! "dtype" = None
  ∧ (∀ k, k ≠ "backbone" → k ≠ "preprocessor" → k ≠ "dtype" →
          constructor_kwargs b p kwargs !! k = kwargs !! k).
Proof.
  unfold constructor_kwargs. repeat split.
  - by rewrite lookup_insert_eq.
  - rewrite lookup_insert_ne by done. by rewrite lookup_insert_eq.
  - rewrite !lookup_insert_ne by done. rewrite lookup_delete_ne by done.
    by rewrite lookup_delete_eq.
  - intros k Hb Hp Hd. rewrite !lookup_insert_ne by done.
    by rewrite !lookup_delete_ne by done.
Qed.

Lemma backbone_overrides_lookup preset load_weights (kwargs : gmap string value) :
  ∃ overrides,
    lp_config_overrides (backbone_load_args preset load_weights kwargs) = Some overrides
    ∧ overrides !! "dtype" = kwargs !! "dtype"
    ∧ ∀ k, k ≠ "dtype" → overrides !! k = None.
Proof.
  unfold backbone_load_args. simpl. eexists. split; [done|].
  destruct (kwargs !! "dtype") as [d|].
  - split; [by rewrite lookup_singleton_eq|]. intros k Hk. by rewrite lookup_singleton_ne.
  - split; [done|]. intros k _. apply lookup_empty.
Qed.

(** X3: whenever [from_preset] returns an instance it built, the backbone was
    loaded with [dtype] as its only configuration override (none when no
    [dtype] was given), and the constructor of the instance's class was
    called with that backbone, with the preprocessor (the one passed in, or
    else the preset's tokenizer wrapped by the class's [preprocessor_cls])
    and with every other keyword argument unchanged; [dtype] is not among
    what the constructor gets. *)
Theorem from_preset_constructor_arguments (cls : Cls) (preset : string)
    (load_weights : bool) (kwargs : gmap string value) (i : instance) :
  result_of (from_preset cls preset load_weights kwargs) = Ok (Built i) →
  ∃ b p,
    load_from_preset (backbone_load_args preset load_weights kwargs) = Ok b
    ∧ (∃ overrides,
         lp_config_overrides (backbone_load_args preset load_weights kwargs) = Some overrides
         ∧ overrides !! "dtype" = kwargs !! "dtype"
         ∧ ∀ k, k ≠ "dtype" → overrides !! k = None)
    ∧ init (type_of i) (constructor_kwargs b p kwargs) = Ok (self_of i)
    ∧ constructor_kwargs b p kwargs !! "backbone" = Some (VObj b)
    ∧ constructor_kwargs b p kwargs !! "preprocessor" = Some p
    ∧ constructor_kwargs b p kwargs !! "dtype" = None
    ∧ (∀ k, k ≠ "backbone" → k ≠ "preprocessor" → k ≠ "dtype" →
            constructor_kwargs b p kwargs !! k = kwargs !! k)
    ∧ match kwargs !! "preprocessor" with
      | Some given => p = given
      | None =>
        ∃ tokenizer pc po,
          load_from_preset (tokenizer_load_args preset) = Ok tokenizer
          ∧ preprocessor_cls (type_of i) = Some pc
          ∧ new_preprocessor pc {[ "tokenizer" := VObj tokenizer ]} = Ok po
          ∧ p = VObj po
      end.
Proof.
  intros Ho.
  apply from_preset_Built_inv in Ho as (pc & c & Hcls & Hb & Hpc & Hbb & Hres & Ho).
  rewrite build_from_backbone_result in Ho.
  destruct (load_from_preset (backbone_load_args preset load_weights kwargs))
    as [b|e] eqn:Hload; simpl in Ho; [|done].
  destruct (result_of (get_preprocessor c preset (delete "dtype" kwargs)))
    as [[p kw]|e] eqn:Hgp; simpl in Ho; [|done].
  unfold constructed, construct in Ho.
  destruct (init c (constructor_kwargs b p kwargs)) as [st|e] eqn:Hinit; [|done].
  injection Ho as <-. cbn [type_of self_of].
  exists b, p. split; [done|].
  split; [exact (backbone_overrides_lookup preset load_weights kwargs)|].
  split; [done|].
  destruct (constructor_kwargs_lookup b p kwargs) as (H1' & H2' & H3' & H4').
  do 4 (split; [done|]).
  rewrite get_preprocessor_result in Hgp.
  rewrite lookup_delete_ne in Hgp by done.
  destruct (kwargs !! "preprocessor") as [given|]; [by injection Hgp as <- _|].
  destruct (load_from_preset (tokenizer_load_args preset)) as [t|e]; [|done].
  destruct (preprocessor_cls c) as [pcl|]; [|done].
  destruct (new_preprocessor pcl _) as [po|e] eqn:Hnew; [|done].
  injection Hgp as <- _. by exists t, pcl, po.
Qed.

(** X4: with an explicit [preprocessor] argument the backbone path loads the
    backbone and nothing else: no tokenizer is loaded and [preprocessor_cls]
    is not used (it may be unset); the constructor gets the given
    preprocessor. *)
Theorem from_preset_explicit_preprocessor (cls : Cls) (preset : string)
    (load_weights : bool) (kwargs : gmap string value) (preset_cls c : Cls)
    (p : value) :
  cls ≠ Task →
  kwargs !! "backbone" = None →
  check_config_class preset = Ok preset_cls →
  issubclass preset_cls Backbone = true →
  resolve_cls cls preset_cls = Ok c →
  kwargs !! "preprocessor" = Some p →
  from_preset cls preset load_weights kwargs =
    ([CheckConfigClass preset;
      LoadFromPreset (backbone_load_args preset load_weights kwargs)],
     match load_from_preset (backbone_load_args preset load_weights kwargs) with
     | Ok b => constructed c (constructor_kwargs b p kwargs)
     | Raise e => Raise e
     end).
Proof.
  intros Hcls Hb Hpc Hbb Hres Hp.
  rewrite (from_preset_backbone_path _ _ _ _ _ _ Hcls Hb Hpc Hbb Hres).
  rewrite build_from_backbone_trace, build_from_backbone_result.
  rewrite get_preprocessor_trace, get_preprocessor_result.
  rewrite lookup_delete_ne by done. rewrite Hp.
  by destruct (load_from_preset _).
Qed.

(** X5: without a [preprocessor] argument, a class that declares no
    [preprocessor_cls] cannot be instantiated from a backbone preset: after
    the backbone and the tokenizer have been loaded, calling the missing
    class raises a [TypeError], and the constructor is not reached. *)
Theorem from_preset_without_preprocessor_cls (cls : Cls) (preset : string)
    (load_weights : bool) (kwargs : gmap string value) (preset_cls c : Cls)
    (b tokenizer : Obj) :
  cls ≠ Task →
  kwargs !! "backbone" = None →
  check_config_class preset = Ok preset_cls →
  issubclass preset_cls Backbone = true →
  resolve_cls cls preset_cls = Ok c →
  kwargs !! "preprocessor" = None →
  preprocessor_cls c = None →
  load_from_preset (backbone_load_args preset load_weights kwargs) = Ok b →
  load_from_preset (tokenizer_load_args preset) = Ok tokenizer →
  from_preset cls preset load_weights kwargs =
    ([CheckConfigClass preset;
      LoadFromPreset (backbone_load_args preset load_weights kwargs);
      LoadFromPreset (tokenizer_load_args preset)],
     Raise (TypeError "'NoneType' object is not callable")).
Proof.
  intros Hcls Hb Hpc Hbb Hres Hp Hpcls Hload Htok.
  rewrite (from_preset_backbone_path _ _ _ _ _ _ Hcls Hb Hpc Hbb Hres).
  rewrite build_from_backbone_trace, build_from_backbone_result.
  rewrite get_preprocessor_trace, get_preprocessor_result.
  rewrite lookup_delete_ne by done. by rewrite Hp, Hload, Htok, Hpcls.
Qed.

(** X6: a task preset whose class is the calling class or below it is
    handed to the loader as it is: one [load_from_preset] call with all the
    keyword arguments as configuration overrides ([dtype] and
    [preprocessor] included), whose result, or exception, is the result of
    [from_preset]; no constructor is called here. *)
Theorem from_preset_task_preset_loaded (cls : Cls) (preset : string)
    (load_weights : bool) (kwargs : gmap string value) (preset_cls : Cls) :
  cls ≠ Task →
  kwargs !! "backbone" = None →
  check_config_class preset = Ok preset_cls →
  issubclass preset_cls Backbone = false →
  issubclass preset_cls cls = true →
  from_preset cls preset load_weights kwargs =
    ([CheckConfigClass preset; LoadFromPreset (task_load_args preset load_weights kwargs)],
     match load_from_preset (task_load_args preset load_weights kwargs) with
     | Ok o => Ok (Loaded o)
     | Raise e => Raise e
     end)
  ∧ lp_config_overrides (task_load_args preset load_weights kwargs) = Some kwargs
  ∧ ∀ i, result_of (from_preset cls preset load_weights kwargs) ≠ Ok (Built i).
Proof.
  intros Hcls Hb Hpc Hbb Hsub.
  rewrite (from_preset_task_path _ _ _ _ _ Hcls Hb Hpc Hbb Hsub).
  split; [done|]. split; [done|]. intros i. simpl.
  by destruct (load_from_preset _).
Qed.

(** X7: the loader calls of one [from_preset] call: none exactly when one of
    the two guards fires; otherwise the class of the preset is read first
    and once, followed by at most two [load_from_preset] calls; and every
    call is for the preset that was asked for. *)
Theorem from_preset_loader_calls (cls : Cls) (preset : string)
    (load_weights : bool) (kwargs : gmap string value) :
  let tr := trace_of (from_preset cls preset load_weights kwargs) in
  (tr = [] ↔ cls = Task ∨ is_Some (kwargs !! "backbone"))
  ∧ (tr = [] ∨ ∃ tr', tr = CheckConfigClass preset :: tr'
                      ∧ Forall (λ ev, is_load ev = true) tr'
                      ∧ (length tr' ≤ 2)%nat)
  ∧ Forall (λ ev, event_preset ev = preset) tr.
Proof.
  intros tr. subst tr.
  destruct (decide (cls = Task)) as [->|Hcls].
  { unfold from_preset. rewrite decide_True by done. simpl.
    split; [split; [by left|done]|]. split; [by left|by constructor]. }
  destruct (kwargs !! "backbone") as [b|] eqn:Hb.
  { unfold from_preset. rewrite decide_False, Hb by done. simpl.
    split; [split; [by right|done]|]. split; [by left|by constructor]. }
  assert (∀ tr', trace_of (from_preset cls preset load_weights kwargs)
                   = CheckConfigClass preset :: tr' →
                 Forall (λ ev, is_load ev = true) tr' → (length tr' ≤ 2)%nat →
                 Forall (λ ev, event_preset ev = preset) tr' →
          (trace_of (from_preset cls preset load_weights kwargs) = []
             ↔ cls = Task ∨ is_Some (None : option value))
          ∧ (trace_of (from_preset cls preset load_weights kwargs) = []
             ∨ ∃ tr'', trace_of (from_preset cls preset load_weights kwargs)
                         = CheckConfigClass preset :: tr''
                       ∧ Forall (λ ev, is_load ev = true) tr'' ∧ (length tr'' ≤ 2)%nat)
          ∧ Forall (λ ev, event_preset ev = preset)
                   (trace_of (from_preset cls preset load_weights kwargs))) as Hgoal.
  { intros tr' -> Hload Hlen Hpre. split; [|split].
    - split; [done|]. intros [?|[? ?]]; done.
    - right. by exists tr'.
    - by constructor. }
  destruct (check_config_class preset) as [pc|e] eqn:Hpc.
  2:{ apply (Hgoal []); [by rewrite (from_preset_check_raises _ _ _ _ e)|..];
        (by constructor) || (simpl; lia). }
  destruct (issubclass pc Backbone) eqn:Hbb.
  - destruct (resolve_cls cls pc) as [c|e] eqn:Hres.
    2:{ apply (Hgoal []); [by rewrite (from_preset_resolve_raises _ _ _ _ pc e)|..];
          (by constructor) || (simpl; lia). }
    eapply Hgoal;
      [rewrite (from_preset_backbone_path _ _ _ _ pc c) by done; reflexivity|..];
      rewrite build_from_backbone_trace, get_preprocessor_trace;
      destruct (load_from_preset (backbone_load_args preset load_weights kwargs));
      destruct (delete "dtype" kwargs !! "preprocessor");
      repeat constructor; simpl; lia.
  - destruct (issubclass pc cls) eqn:Hsub.
    + eapply Hgoal;
        [rewrite (from_preset_task_path _ _ _ _ pc) by done; reflexivity|..];
        repeat constructor; simpl; lia.
    + apply (Hgoal []); [by rewrite (from_preset_not_subclass _ _ _ _ pc)|..];
        (by constructor) || (simpl; lia).
Qed.

(** X8: a failure of the loader is the failure of [from_preset], and ends
    it: when the class of the preset cannot be read nothing is loaded; when
    the backbone cannot be loaded the tokenizer is not asked for and the
    constructor is not called. *)
Theorem from_preset_loader_failure (cls : Cls) (preset : string)
    (load_weights : bool) (kwargs : gmap string value) (e : exn) :
  cls ≠ Task →
  kwargs !! "backbone" = None →
  (check_config_class preset = Raise e →
     from_preset cls preset load_weights kwargs = ([CheckConfigClass preset], Raise e))
  ∧ (∀ preset_cls c,
       check_config_class preset = Ok preset_cls →
       issubclass preset_cls Backbone = true →
       resolve_cls cls preset_cls = Ok c →
       load_from_preset (backbone_load_args preset load_weights kwargs) = Raise e →
       from_preset cls preset load_weights kwargs =
         ([CheckConfigClass preset;
           LoadFromPreset (backbone_load_args preset load_weights kwargs)],
          Raise e)).
Proof.
  intros Hcls Hb. split.
  - intros He. by apply from_preset_check_raises.
  - intros pc c Hpc Hbb Hres Hload.
    rewrite (from_preset_backbone_path _ _ _ _ _ _ Hcls Hb Hpc Hbb Hres).
    rewrite build_from_backbone_trace, build_from_backbone_result.
    by rewrite Hload.
Qed.

End FromPresetArguments.

(** * Further properties of [compile] *)

Section CompileMore.
Context `{Collaborators}.

(** X9: exactly when [_check_for_loss_mismatch] raises, and what.  Only a
    single loss that is no dict, on a task with an [activation], can make it
    raise; then it raises what keras raises on a loss it cannot resolve,
    else what keras raises on an activation it cannot resolve (whatever the
    loss is), else one of the two mismatch errors: softmax output under a
    [SparseCategoricalCrossentropy] with [from_logits=True], linear output
    under one with [from_logits=False] or under the function
    [sparse_categorical_crossentropy].  Any other loss, and any other
    activation, passes. *)
Theorem check_for_loss_mismatch_raises (self : fields) (loss : loss_arg) (e : exn) :
  _check_for_loss_mismatch self loss = Raise e ↔
  ∃ l a,
    loss = LossSingle l
    ∧ (∀ c, l ≠ VConfig c)
    ∧ inst_dict self !! "activation" = Some a
    ∧ (keras_losses_get l = Raise e
       ∨ ∃ lo,
           keras_losses_get l = Ok lo
           ∧ (keras_activations_get a = Raise e
              ∨ ∃ act,
                  keras_activations_get a = Ok act
                  ∧ ((lo = SparseCategoricalCrossentropy true ∧ act = softmax
                      ∧ e = ValueError msg_expects_logits)
                     ∨ ((lo = SparseCategoricalCrossentropy false
                         ∨ lo = sparse_categorical_crossentropy)
                        ∧ act = linear
                        ∧ e = ValueError msg_expects_softmax)))).
Proof.
  split.
  - destruct loss as [d|ls|ls|l]; try done.
    assert ((∃ c, l = VConfig c) ∨ ∀ c, l ≠ VConfig c) as [[c ->]|Hl'].
    { destruct l as [| | |c|]; try (by right). left. by exists c. }
    { done. }
    destruct (inst_dict self !! "activation") as [a|] eqn:Ha.
    2:{ unfold _check_for_loss_mismatch. rewrite Ha.
        by destruct (is_dict_list_or_tuple _). }
    rewrite (check_single self l a Hl' Ha).
    intros Hc. exists l, a. do 3 (split; [done|]).
    destruct (keras_losses_get l) as [lo|e1] eqn:Hlo; [|left; congruence].
    right. exists lo. split; [done|].
    destruct (keras_activations_get a) as [act|e2] eqn:Hact; [|left; congruence].
    right. exists act. split; [done|].
    destruct lo as [[|]| |id]; [| | |done].
    + destruct (decide (act = softmax)) as [->|Hne].
      * left. simpl in Hc. by injection Hc as <-.
      * by rewrite bool_decide_eq_false_2 in Hc.
    + destruct (decide (act = linear)) as [->|Hne].
      * right. simpl in Hc. injection Hc as <-. by split; [left|].
      * by rewrite bool_decide_eq_false_2 in Hc.
    + destruct (decide (act = linear)) as [->|Hne].
      * right. simpl in Hc. injection Hc as <-. by split; [right|].
      * by rewrite bool_decide_eq_false_2 in Hc.
  - intros (l & a & -> & Hl & Ha & Hcases). rewrite (check_single self l a Hl Ha).
    destruct Hcases as [Hlo|(lo & Hlo & Hcases)]; rewrite Hlo; [done|].
    destruct Hcases as [Hact|(act & Hact & Hcases)]; rewrite Hact; [done|].
    by destruct Hcases as [(-> & -> & ->)|([-> | ->] & -> & ->)].
Qed.

(** X10: once the check has passed, [compile] is the underlying compile step
    on the same optimizer and loss.  On the torch backend the keyword
    arguments it passes on have [jit_compile] set to [False], whatever the
    caller gave for it, and are otherwise the caller's; on any other backend
    they are the caller's unchanged. *)
Theorem compile_jit_compile (self : instance) (optimizer : value) (loss : loss_arg)
    (kwargs : gmap string value) :
  _check_for_loss_mismatch (self_of self) loss = Ok () →
  (config_backend = "torch" →
     ∃ kw, compile self optimizer loss kwargs = keras_compile self optimizer loss kw
           ∧ kw !! "jit_compile" = Some (VBool false)
           ∧ ∀ k, k ≠ "jit_compile" → kw !! k = kwargs !! k)
  ∧ (config_backend ≠ "torch" →
     compile self optimizer loss kwargs = keras_compile self optimizer loss kwargs).
Proof.
  intros Hc. rewrite (compile_after_check _ _ _ _ Hc). split; intros Hbackend.
  - rewrite decide_True by done. eexists. split; [done|].
    split; [by rewrite lookup_insert_eq|]. intros k Hk. by rewrite lookup_insert_ne.
  - by rewrite decide_False.
Qed.

End CompileMore.

(** * Further properties of the two properties and [__setattr__] *)

Section SetattrMore.
Context `{Collaborators}.

(** X11: the route an assignment to [backbone] or [preprocessor] takes.
    While the instance is not yet initialized, on the torch backend or on
    Keras 2, it writes the private attribute into the instance dictionary
    and keras's [__setattr__] is not involved, so the property reads the
    value back whatever keras does.  On an initialized instance it goes to
    keras's [__setattr__]: on torch for the private name, from inside the
    setter; otherwise for the property name itself, and from there to the
    setter. *)
Theorem property_assignment_routes (self : fields) (name : string) (v : value) :
  name = "backbone" ∨ name = "preprocessor" →
  ((config_backend = "torch" ∨ config_keras_3 = false) →
     hasattr self "_initialized" = false →
     setattr self name v = Ok (dict_setattr self (attribute_of name) v)
     ∧ getattr_or_none (dict_setattr self (attribute_of name) v) (attribute_of name) = v)
  ∧ (config_backend = "torch" → hasattr self "_initialized" = true →
     setattr self name v =
       keras_setattr (λ s n x, Ok (dict_setattr s n x)) self (attribute_of name) v)
  ∧ (config_backend ≠ "torch" →
     (config_keras_3 = true ∨ hasattr self "_initialized" = true) →
     setattr self name v = keras_setattr object_setattr self name v).
Proof.
  intros Hname.
  assert (is_task_property name = true ∧ is_task_property (attribute_of name) = false
          ∧ object_setattr self name v =
              task_setattr (λ s n x, Ok (dict_setattr s n x)) self (attribute_of name) v)
    as (Hprop & Hpriv & Hobj).
  { by destruct Hname as [-> | ->]. }
  unfold setattr, task_setattr. rewrite Hprop. fold (task_setattr object_setattr).
  split; [|split].
  - intros Hcfg Hinit. rewrite Hinit. simpl. split.
    + destruct Hcfg as [Htorch|Hk2].
      * rewrite (bool_decide_eq_true_2 _ Htorch). simpl. rewrite Hobj.
        unfold task_setattr. rewrite Hpriv, Hinit, (bool_decide_eq_true_2 _ Htorch). done.
      * rewrite Hk2. simpl.
        assert (task_setattr (λ s n x, Ok (dict_setattr s n x)) self (attribute_of name) v
                = Ok (dict_setattr self (attribute_of name) v)) as Hset.
        { unfold task_setattr. rewrite Hpriv, Hinit, Hk2. simpl.
          by destruct (bool_decide (config_backend = "torch")). }
        destruct (bool_decide (config_backend = "torch")); simpl; by rewrite Hobj.
    + unfold getattr_or_none, dict_setattr. simpl. by rewrite lookup_insert_eq.
  - intros Htorch Hinit. rewrite Hinit, (bool_decide_eq_true_2 _ Htorch). simpl.
    rewrite Hobj. unfold task_setattr.
    rewrite Hpriv, Hinit, (bool_decide_eq_true_2 _ Htorch). simpl.
    by rewrite andb_false_r.
  - intros Htorch Hcfg. rewrite (bool_decide_eq_false_2 _ Htorch). simpl.
    destruct Hcfg as [-> | ->]; simpl; [done|by rewrite andb_false_r].
Qed.

(** X12: taking the preprocessor away.  After [task.preprocessor = None],
    [preprocess_samples] hands [x], [y] and [sample_weight] back as they
    are, and [layers] is the standard listing in full. *)
Theorem preprocessor_disabled (self self' : fields) (x y sample_weight : value) :
  keras_track_keeps →
  set_preprocessor self VNone = Ok self' →
  preprocessor self' = VNone
  ∧ preprocess_samples self' x y sample_weight = Ok (x, y, sample_weight)
  ∧ layers self' = Ok (inst_layers self')
  ∧ backbone self' = backbone self.
Proof.
  intros Hk Hset.
  destruct (set_preprocessor_Ok self VNone self' Hset) as [Hp Hb].
  specialize (Hb Hk).
  split; [done|]. unfold preprocess_samples, layers. rewrite Hp. done.
Qed.


(** X14: [get_config] follows the properties: after [task.backbone = v] its
    [backbone] entry is the serialization of [v], and its [preprocessor]
    entry is what it was. *)
Theorem get_config_after_assignment (self self' : fields) (v : value) :
  keras_track_keeps →
  set_backbone self v = Ok self' →
  get_config self' !! "backbone" = Some (keras_layers_serialize v)
  ∧ get_config self' !! "preprocessor" = get_config self !! "preprocessor".
Proof.
  intros Hk Hset.
  destruct (set_backbone_Ok self v self' Hset) as [Hb Hp].
  specialize (Hp Hk).
  rewrite get_config_backbone, !get_config_preprocessor. by rewrite Hb, Hp.
Qed.

End SetattrMore.

(** * Further properties of [from_config] *)

Section ConfigMore.
Context `{Collaborators}.

Lemma deserialize_entry_cases key (config : gmap string value) :
  (∃ c e, config !! key = Some (VConfig c)
          ∧ keras_layers_deserialize c = Raise e
          ∧ deserialize_entry key config = Raise e)
  ∨ (∃ c o, config !! key = Some (VConfig c)
            ∧ keras_layers_deserialize c = Ok o
            ∧ deserialize_entry key config = Ok (<[key := VObj o]> config))
  ∨ ((∀ c, config !! key ≠ Some (VConfig c))
     ∧ deserialize_entry key config = Ok config).
Proof.
  unfold deserialize_entry.
  destruct (config !! key) as [[| | |c|]|] eqn:Hk;
    try (right; right; split; [by intros c'|done]).
  destruct (keras_layers_deserialize c) as [o|e] eqn:Hd.
  - right. left. by exists c, o.
  - left. by exists c, e.
Qed.

(** X15: a configuration with no serialized sub-configuration under
    [backbone] or [preprocessor] (the entry is missing, is [None], or is
    an object already) goes to the constructor as it is; nothing is
    deserialized. *)
Theorem from_config_without_dicts (cls : Cls) (config : gmap string value) :
  (∀ c, config !! "backbone" ≠ Some (VConfig c)) →
  (∀ c, config !! "preprocessor" ≠ Some (VConfig c)) →
  from_config cls config = construct cls config.
Proof.
  intros Hb Hp. unfold from_config.
  destruct (deserialize_entry_cases "backbone" config)
    as [(c & e & Hc & _)|[(c & o & Hc & _)|[_ ->]]]; [by destruct (Hb c)..|].
  simpl.
  destruct (deserialize_entry_cases "preprocessor" config)
    as [(c & e & Hc & _)|[(c & o & Hc & _)|[_ ->]]]; [by destruct (Hp c)..|].
  done.
Qed.

(** X16: what [from_config] calls the constructor with.  Either a
    sub-configuration under [backbone] or [preprocessor] fails to
    deserialize and that exception is raised, or the constructor is called
    with keyword arguments that have the keys of the configuration, the
    same value under every key other than those two, and under each of
    those two the deserialized object if the entry was a dictionary, the
    entry itself if not. *)
Theorem from_config_constructor_arguments (cls : Cls) (config : gmap string value) :
  (∃ key c e, (key = "backbone" ∨ key = "preprocessor")
              ∧ config !! key = Some (VConfig c)
              ∧ keras_layers_deserialize c = Raise e
              ∧ from_config cls config = Raise e)
  ∨ ∃ kwargs,
      from_config cls config = construct cls kwargs
      ∧ dom kwargs = dom config
      ∧ (∀ k, k ≠ "backbone" → k ≠ "preprocessor" → kwargs !! k = config !! k)
      ∧ (∀ key, key = "backbone" ∨ key = "preprocessor" →
           match config !! key with
           | Some (VConfig c) =>
             ∃ o, keras_layers_deserialize c = Ok o ∧ kwargs !! key = Some (VObj o)
           | entry => kwargs !! key = entry
           end).
Proof.
  unfold from_config.
  destruct (deserialize_entry_cases "backbone" config)
    as [(c & e & Hc & Hd & ->)|[(c & o & Hc & Hd & ->)|[Hb ->]]]; simpl.
  { left. exists "backbone", c, e. by repeat split; [left|..]. }
  - destruct (deserialize_entry_cases "preprocessor" (<["backbone" := VObj o]> config))
      as [(c' & e & Hc' & Hd' & ->)|[(c' & o' & Hc' & Hd' & ->)|[Hp ->]]]; simpl.
    { left. exists "preprocessor", c', e. rewrite lookup_insert_ne in Hc' by done.
      by repeat split; [right|..]. }
    + right. eexists. split; [done|]. rewrite lookup_insert_ne in Hc' by done.
      split; [|split].
      * rewrite dom_insert_lookup_L by (by rewrite lookup_insert_ne).
        by rewrite dom_insert_lookup_L.
      * intros k Hk1 Hk2. by rewrite !lookup_insert_ne.
      * intros key [-> | ->].
        -- rewrite Hc. exists o. split; [done|].
           rewrite lookup_insert_ne by done. by rewrite lookup_insert_eq.
        -- rewrite Hc'. exists o'. split; [done|]. by rewrite lookup_insert_eq.
    + right. eexists. split; [done|]. split; [|split].
      * by rewrite dom_insert_lookup_L.
      * intros k Hk1 Hk2. by rewrite !lookup_insert_ne.
      * intros key [-> | ->].
        -- rewrite Hc. exists o. split; [done|]. by rewrite lookup_insert_eq.
        -- rewrite lookup_insert_ne by done.
           destruct (config !! "preprocessor") as [[| | |c'|]|] eqn:Hcp; try done.
           destruct (Hp c'). by rewrite lookup_insert_ne.
  - destruct (deserialize_entry_cases "preprocessor" config)
      as [(c' & e & Hc' & Hd' & ->)|[(c' & o' & Hc' & Hd' & ->)|[Hp ->]]]; simpl.
    { left. exists "preprocessor", c', e. by repeat split; [right|..]. }
    + right. eexists. split; [done|]. split; [|split].
      * by rewrite dom_insert_lookup_L.
      * intros k Hk1 Hk2. by rewrite !lookup_insert_ne.
      * intros key [-> | ->].
        -- rewrite lookup_insert_ne by done.
           destruct (config !! "backbone") as [[| | |c|]|] eqn:Hcb; try done.
           by destruct (Hb c).
        -- rewrite Hc'. exists o'. split; [done|]. by rewrite lookup_insert_eq.
    + right. exists config. split; [done|]. split; [done|]. split; [done|].
      intros key [-> | ->].
      * destruct (config !! "backbone") as [[| | |c|]|] eqn:Hcb; try done.
        by destruct (Hb c).
      * destruct (config !! "preprocessor") as [[| | |c|]|] eqn:Hcp; try done.
        by destruct (Hp c).
Qed.

(** X17: the deserialization step of [from_config] is idempotent: on the
    configuration it has produced it changes nothing, and deserializes
    nothing again. *)
Theorem deserialize_entry_idempotent (key : string) (config config' : gmap string value) :
  deserialize_entry key config = Ok config' →
  deserialize_entry key config' = Ok config'.
Proof.
  intros Hd.
  destruct (deserialize_entry_cases key config)
    as [(c & e & _ & _ & He)|[(c & o & _ & _ & Ho)|[Hn Ho]]].
  - congruence.
  - rewrite Ho in Hd. injection Hd as <-.
    unfold deserialize_entry. by rewrite lookup_insert_eq.
  - rewrite Ho in Hd. by injection Hd as <-.
Qed.

End ConfigMore.

(** * Further properties of [layers] *)

Section LayersMore.
Context `{PyObjects}.

Lemma list_remove_first_sublist (o : Obj) (l l' : list Obj) :
  list_remove_first o l = Ok l' → l' `sublist_of` l ∧ length l = S (length l').
Proof.
  revert l'. induction l as [|x l IH]; intros l'; simpl; [done|].
  destruct (decide (x = o)) as [->|Hne].
  - intros [= <-]. split; [by apply sublist_cons|done].
  - destruct (list_remove_first o l) as [l''|e]; simpl; [|done].
    intros [= <-]. destruct (IH l'' eq_refl) as [Hsub Hlen].
    split; [by apply sublist_skip|]. simpl. by rewrite Hlen.
Qed.

(** X18: [layers] always returns, and returns a subsequence of the standard
    listing that is at most one layer shorter: it adds nothing, reorders
    nothing, and every layer of the standard listing other than the
    preprocessor is still in it. *)
Theorem layers_sublist (self : fields) :
  ∃ l, layers self = Ok l
       ∧ l `sublist_of` inst_layers self
       ∧ (length (inst_layers self) ≤ S (length l))%nat
       ∧ ∀ o, o ∈ inst_layers self → preprocessor self ≠ VObj o → o ∈ l.
Proof.
  unfold layers.
  destruct (preprocessor self) as [| | | |p] eqn:Hp; simpl; rewrite ?andb_false_r;
    try (eexists; split; [reflexivity|]; split; [done|]; split; [lia|done]).
  destruct (decide (p ∈ inst_layers self)) as [Hin|Hnot].
  - rewrite bool_decide_eq_true_2 by done.
    destruct (list_remove_first_elem_of p _ Hin) as (l1 & l2 & Heq & Hn1 & Hrem).
    exists (l1 ++ l2). split; [done|].
    destruct (list_remove_first_sublist _ _ _ Hrem) as [Hsub Hlen].
    split; [done|]. split; [lia|].
    intros o Ho Hne. rewrite Heq in Ho.
    apply elem_of_app in Ho as [Ho|Ho]; [apply elem_of_app; by left|].
    apply elem_of_cons in Ho as [->|Ho]; [done|]. apply elem_of_app. by right.
  - rewrite bool_decide_eq_false_2 by done.
    eexists. split; [reflexivity|]. split; [done|]. split; [lia|done].
Qed.

End LayersMore.

(** * Further properties of [presets] *)

Section PresetsMore.
Context `{Collaborators}.

(** X19: which entry wins when a preset name is declared more than once.  A
    name that no subclass lists has the backbone's entry when the backbone
    class lists it, the class's own entry otherwise; a name that subclasses
    list has the entry of the last subclass in [list_subclasses] that lists
    it. *)
Theorem presets_precedence (height : Cls → nat) (cls : Cls)
    (m : gmap string Meta) (k : string) :
  (∀ c d, d ∈ list_subclasses c → height d < height c) →
  presets_returns height cls m →
  ((∀ s ms, s ∈ list_subclasses cls → presets_returns height s ms → ms !! k = None) →
     m !! k =
       match backbone_cls cls with
       | Some b =>
         match backbone_presets b !! k with
         | Some x => Some x
         | None => list_presets cls !! k
         end
       | None => list_presets cls !! k
       end)
  ∧ (∀ l1 s l2 ms x,
       list_subclasses cls = l1 ++ s :: l2 →
       presets_returns height s ms →
       ms !! k = Some x →
       (∀ s' ms', s' ∈ l2 → presets_returns height s' ms' → ms' !! k = None) →
       m !! k = Some x).
Proof.
  intros Hh Hm. by apply (presets_lookup height Hh).
Qed.

(** X20: every preset name listed for a subclass, or for any class reached
    through [list_subclasses], is listed for the class itself. *)
Theorem presets_of_subclass_listed (height : Cls → nat) (cls d : Cls)
    (m md : gmap string Meta) :
  (∀ c d, d ∈ list_subclasses c → height d < height c) →
  rtc (λ x y, x ∈ list_subclasses y) d cls →
  presets_returns height cls m →
  presets_returns height d md →
  dom md ⊆ dom m.
Proof.
  intros Hh Hd Hm Hmd k Hk.
  apply (presets_closure height Hh d md Hmd) in Hk as (d' & Hd' & Hk).
  apply (presets_closure height Hh cls m Hm). exists d'. split; [|done].
  by etrans.
Qed.

End PresetsMore.

(** * [__dir__] *)

Section DirMore.
Context `{Collaborators}.
Variable py_id : value → Z.
Variable py_getattr : string → result value.

Lemma py_filter_Ok {A} (f : A → result bool) (l l' : list A) :
  py_filter f l = Ok l' →
  l' `sublist_of` l ∧ ∀ a, a ∈ l' ↔ a ∈ l ∧ f a = Ok true.
Proof.
  revert l'. induction l as [|x l IH]; intros l'; simpl.
  - intros [= <-]. split; [done|]. intros a. split; [by intros ?%elem_of_nil|].
    by intros [?%elem_of_nil _].
  - destruct (f x) as [b|e] eqn:Hx; [|done].
    destruct (py_filter f l) as [rest|e]; [|done].
    intros [= <-]. destruct (IH rest eq_refl) as [Hsub Hin]. destruct b.
    + split; [by apply sublist_skip|]. intros a. rewrite !elem_of_cons, Hin.
      split; [intros [->|[? ?]]; auto|]. intros [[->|?] ?]; auto.
    + split; [by apply sublist_cons|]. intros a. rewrite elem_of_cons, Hin.
      split; [intros [? ?]; auto|]. intros [[->|?] ?]; [congruence|auto].
Qed.

Lemma py_filter_Raise {A} (f : A → result bool) (l : list A) (e : exn) :
  py_filter f l = Raise e ↔
  ∃ l1 a l2, l = l1 ++ a :: l2 ∧ f a = Raise e ∧ ∀ a', a' ∈ l1 → ∃ b, f a' = Ok b.
Proof.
  induction l as [|x l IH].
  - split; [done|]. intros (l1 & a & l2 & Hl & _). by destruct l1.
  - destruct (f x) as [b|e0] eqn:Hx.
    + assert (py_filter f (x :: l) = Raise e ↔ py_filter f l = Raise e) as ->.
      { simpl. rewrite Hx. by destruct (py_filter f l). }
      rewrite IH. split.
      * intros (l1 & a & l2 & -> & Ha & Hl1).
        exists (x :: l1), a, l2. split; [done|]. split; [done|].
        intros a' [->|Ha']%elem_of_cons; eauto.
      * intros (l1 & a & l2 & Hl & Ha & Hl1).
        destruct l1 as [|y l1]; simpl in Hl; injection Hl as -> ->; [congruence|].
        exists l1, a, l2. split; [done|]. split; [done|].
        intros a' Ha'. apply Hl1. by right.
    + assert (py_filter f (x :: l) = Raise e0) as -> by (simpl; by rewrite Hx).
      split.
      * intros [= ->]. exists [], x, l. split; [done|]. split; [done|].
        by intros a' ?%elem_of_nil.
      * intros (l1 & a & l2 & Hl & Ha & Hl1).
        destruct l1 as [|y l1]; simpl in Hl; injection Hl as -> ->; [congruence|].
        destruct (Hl1 y) as [b Hb]; [by left|]. congruence.
Qed.

(** X21: what [__dir__] lists.  On Keras 3 it is the inherited listing.  On
    Keras 2, when it returns, it is a subsequence of the inherited listing
    holding exactly the attributes that are none of the four saving
    attributes and whose value is not one of the recorded functional
    layers. *)
Theorem dir_lists (_functional_layer_ids : gset Z) (super_dir l : list string) :
  __dir__ py_id py_getattr _functional_layer_ids super_dir = Ok l →
  (config_keras_3 = true → l = super_dir)
  ∧ (config_keras_3 = false →
     l `sublist_of` super_dir
     ∧ ∀ attr, attr ∈ l ↔
               attr ∈ super_dir
               ∧ (attr ∉ saving_attrs)
               ∧ ∃ v, py_getattr attr = Ok v ∧ py_id v ∉ _functional_layer_ids).
Proof.
  unfold __dir__. intros Hdir. split; intros Hk; rewrite Hk in Hdir.
  - by injection Hdir as <-.
  - apply py_filter_Ok in Hdir as [Hsub Hin]. split; [done|].
    intros attr. rewrite Hin. unfold filter_fn. split.
    + intros [Ha Hf]. split; [done|]. case_bool_decide as Hs; [done|].
      split; [done|]. destruct (py_getattr attr) as [v|e]; [|done].
      exists v. split; [done|]. simpl in Hf. injection Hf as Hf.
      by apply bool_decide_eq_true_1 in Hf.
    + intros (Ha & Hs & v & Hv & Hid). split; [done|].
      rewrite bool_decide_eq_false_2 by done. rewrite Hv. simpl.
      by rewrite bool_decide_eq_true_2.
Qed.

(** X22: on Keras 2 an attribute bound to a layer that the model had when
    [__init__] recorded [_functional_layer_ids] is never listed. *)
Theorem dir_hides_functional_layers (flatten_layers : list Obj)
    (super_dir l : list string) (attr : string) (layer : Obj) :
  config_keras_3 = false →
  __dir__ py_id py_getattr (functional_layer_ids py_id flatten_layers) super_dir = Ok l →
  layer ∈ flatten_layers →
  py_getattr attr = Ok (VObj layer) →
  attr ∉ l.
Proof.
  unfold __dir__. intros Hk Hdir Hlayer Hattr Hin. rewrite Hk in Hdir.
  apply py_filter_Ok in Hdir as [_ Hl]. apply Hl in Hin as [_ Hf].
  unfold filter_fn in Hf. case_bool_decide; [done|]. rewrite Hattr in Hf.
  simpl in Hf. injection Hf as Hf. apply bool_decide_eq_true_1 in Hf.
  apply Hf. unfold functional_layer_ids. apply elem_of_list_to_set.
  apply list_elem_of_fmap. by exists layer.
Qed.

(** X23: on Keras 2 [__dir__] raises exactly when reading some attribute
    raises, with the exception of the first such attribute; the four saving
    attributes are never read, so they cannot make it fail. *)
Theorem dir_raises (_functional_layer_ids : gset Z) (super_dir : list string) (e : exn) :
  config_keras_3 = false →
  __dir__ py_id py_getattr _functional_layer_ids super_dir = Raise e ↔
  ∃ l1 attr l2,
    super_dir = l1 ++ attr :: l2
    ∧ (attr ∉ saving_attrs)
    ∧ py_getattr attr = Raise e
    ∧ ∀ a, a ∈ l1 → a ∈ saving_attrs ∨ ∃ v, py_getattr a = Ok v.
Proof.
  intros Hk. unfold __dir__. rewrite Hk, py_filter_Raise.
  assert (∀ a e', filter_fn py_id py_getattr _functional_layer_ids a = Raise e' ↔
                  (a ∉ saving_attrs) ∧ py_getattr a = Raise e') as Hraise.
  { intros a e'. unfold filter_fn. case_bool_decide as Hs.
    - split; [done|]. by intros [? _].
    - destruct (py_getattr a); simpl; split; try done; try by intros [_ ?].
      + intros [= ->]. done.
      + intros [_ [= ->]]. done. }
  assert (∀ a, (∃ b, filter_fn py_id py_getattr _functional_layer_ids a = Ok b) ↔
               a ∈ saving_attrs ∨ ∃ v, py_getattr a = Ok v) as Hok.
  { intros a. unfold filter_fn. case_bool_decide as Hs.
    - split; [by left|by exists false].
    - destruct (py_getattr a) as [v|e']; simpl.
      + split; [right; by exists v|by eexists].
      + split; [by intros [? ?]|]. intros [?|[? ?]]; done. }
  split.
  - intros (l1 & a & l2 & -> & Ha & Hl1). apply Hraise in Ha as [Hs Ha].
    exists l1, a, l2. repeat split; try done. intros a' Ha'. by apply Hok, Hl1.
  - intros (l1 & a & l2 & -> & Hs & Ha & Hl1).
    exists l1, a, l2. split; [done|]. split; [by apply Hraise|].
    intros a' Ha'. by apply Hok, Hl1.
Qed.

End DirMore.

(** * The ambiguity message *)

Section Messages.
Context `{Collaborators}.

Lemma string_app_assoc (a b c : string) : (a +:+ b) +:+ c = a +:+ b +:+ c.
Proof.
  induction a as [|ch a IH]; [reflexivity|].
  change (String ch ((a +:+ b) +:+ c) = String ch (a +:+ b +:+ c)). by f_equal.
Qed.

Lemma string_app_nil_r (a : string) : a +:+ "" = a.
Proof.
  induction a as [|ch a IH]; [reflexivity|].
  change (String ch (a +:+ "") = String ch a). by f_equal.
Qed.

Lemma join_contains (sep s : string) (l : list string) :
  s ∈ l → ∃ pre post, join sep l = pre +:+ s +:+ post.
Proof.
  induction l as [|x l IH]; intros Hin; [by apply elem_of_nil in Hin|].
  destruct l as [|y l].
  - apply list_elem_of_singleton in Hin as ->.
    exists "", "". simpl. by rewrite string_app_nil_r.
  - apply elem_of_cons in Hin as [->|Hin].
    + exists "", (sep +:+ join sep (y :: l)). done.
    + destruct (IH Hin) as (pre & post & Hj).
      exists (x +:+ sep +:+ pre), post.
      change (join sep (x :: y :: l)) with (x +:+ sep +:+ join sep (y :: l)).
      by rewrite Hj, !string_app_assoc.
Qed.

(** X24: the ambiguity error names every candidate: when more than one known
    subclass declares the backbone class of the preset, the message of the
    error [from_preset] raises holds the name of each of them, between
    backquotes. *)
Theorem from_preset_ambiguity_names (cls : Cls) (preset : string)
    (load_weights : bool) (kwargs : gmap string value) (preset_cls c : Cls) :
  cls ≠ Task →
  kwargs !! "backbone" = None →
  check_config_class preset = Ok preset_cls →
  issubclass preset_cls Backbone = true →
  backbone_cls cls ≠ Some preset_cls →
  1 < length (matching_subclasses cls preset_cls) →
  c ∈ matching_subclasses cls preset_cls →
  ∃ pre post,
    from_preset cls preset load_weights kwargs =
      ([CheckConfigClass preset],
       Raise (ValueError (pre +:+ "`" +:+ cls_name c +:+ "`" +:+ post))).
Proof.
  intros Hcls Hb Hpc Hbb Hne Hlen Hc.
  rewrite (from_preset_resolve_raises _ _ _ _ preset_cls _ Hcls Hb Hpc Hbb
             (resolve_cls_many _ _ Hne Hlen)).
  unfold msg_ambiguous.
  destruct (join_contains ", " ("`" +:+ cls_name c +:+ "`")
              ((λ x, "`" +:+ cls_name x +:+ "`") <$> matching_subclasses cls preset_cls))
    as (pre & post & Hj).
  { apply list_elem_of_fmap. by exists c. }
  cbv zeta. rewrite Hj.
  exists ("Ambiguous call to `" +:+ cls_name cls +:+ ".from_preset()`. " +:+
          "Found multiple possible subclasses " +:+ pre),
         (post +:+ ". " +:+ "Please call `from_preset` on a subclass directly.").
  do 3 f_equal. by rewrite !string_app_assoc.
Qed.

End Messages.

(** * The further properties on the concrete runtime *)

Lemma from_preset_own_backbone_cls_witness :
  from_preset Sample.cBertClassifier "bert_base_en" true ∅ =
    (CheckConfigClass "bert_base_en"
       :: trace_of (build_from_backbone Sample.cBertClassifier "bert_base_en" true ∅),
     result_of (build_from_backbone Sample.cBertClassifier "bert_base_en" true ∅)).
Proof.
  apply (@from_preset_own_backbone_cls _ _ Sample.collaborators
           Sample.cBertClassifier "bert_base_en" true ∅ Sample.cBertBackbone);
    (discriminate || reflexivity).
Defined.

Lemma from_preset_returns_witness :
  (∅ : gmap string value) !! "backbone" = None
  ∧ ∃ preset_cls,
      check_config_class "xlm_roberta_base_multi" = Ok preset_cls
      ∧ ((issubclass preset_cls Backbone = true
          ∧ ∃ i, Built xlm_roberta_classifier = Built i
                 ∧ backbone_cls (type_of i) = Some preset_cls
                 ∧ (type_of i = Sample.cClassifier
                    ∨ type_of i ∈ list_subclasses Sample.cClassifier))
         ∨ (issubclass preset_cls Backbone = false
            ∧ issubclass preset_cls Sample.cClassifier = true
            ∧ ∃ ob, Built xlm_roberta_classifier = Loaded ob
                    ∧ load_from_preset
                        (task_load_args "xlm_roberta_base_multi" true ∅) = Ok ob)).
Proof.
  apply (@from_preset_returns _ _ Sample.collaborators
           Sample.cClassifier "xlm_roberta_base_multi" true ∅
           (Built xlm_roberta_classifier)).
  reflexivity.
Defined.

Lemma from_preset_constructor_arguments_witness :
  ∃ b p,
    load_from_preset (backbone_load_args "xlm_roberta_base_multi" true
                        {[ "dtype" := VStr "bfloat16" ]}) = Ok b
    ∧ (∃ overrides,
         lp_config_overrides (backbone_load_args "xlm_roberta_base_multi" true
                                {[ "dtype" := VStr "bfloat16" ]}) = Some overrides
         ∧ overrides !! "dtype" =
             ({[ "dtype" := VStr "bfloat16" ]} : gmap string value) !! "dtype"
         ∧ ∀ k, k ≠ "dtype" → overrides !! k = None)
    ∧ init (type_of xlm_roberta_classifier)
           (constructor_kwargs b p {[ "dtype" := VStr "bfloat16" ]}) =
        Ok (self_of xlm_roberta_classifier)
    ∧ constructor_kwargs b p {[ "dtype" := VStr "bfloat16" ]} !! "backbone" = Some (VObj b)
    ∧ constructor_kwargs b p {[ "dtype" := VStr "bfloat16" ]} !! "preprocessor" = Some p
    ∧ constructor_kwargs b p {[ "dtype" := VStr "bfloat16" ]} !! "dtype" = None
    ∧ (∀ k, k ≠ "backbone" → k ≠ "preprocessor" → k ≠ "dtype" →
            constructor_kwargs b p {[ "dtype" := VStr "bfloat16" ]} !! k =
              ({[ "dtype" := VStr "bfloat16" ]} : gmap string value) !! k)
    ∧ match ({[ "dtype" := VStr "bfloat16" ]} : gmap string value) !! "preprocessor" with
      | Some given => p = given
      | None =>
        ∃ tokenizer pc po,
          load_from_preset (tokenizer_load_args "xlm_roberta_base_multi") = Ok tokenizer
          ∧ preprocessor_cls (type_of xlm_roberta_classifier) = Some pc
          ∧ new_preprocessor pc {[ "tokenizer" := VObj tokenizer ]} = Ok po
          ∧ p = VObj po
      end.
Proof.
  apply (@from_preset_constructor_arguments _ _ Sample.collaborators
           Sample.cClassifier "xlm_roberta_base_multi" true
           {[ "dtype" := VStr "bfloat16" ]} xlm_roberta_classifier).
  reflexivity.
Defined.

Lemma from_preset_explicit_preprocessor_witness :
  from_preset Sample.cBertClassifier "bert_base_en" true
    {[ "preprocessor" := Sample.as_value Sample.bert_preprocessor ]} =
    ([CheckConfigClass "bert_base_en";
      LoadFromPreset
        (backbone_load_args "bert_base_en" true
           {[ "preprocessor" := Sample.as_value Sample.bert_preprocessor ]})],
     match load_from_preset
             (backbone_load_args "bert_base_en" true
                {[ "preprocessor" := Sample.as_value Sample.bert_preprocessor ]}) with
     | Ok b =>
       constructed Sample.cBertClassifier
         (constructor_kwargs b (Sample.as_value Sample.bert_preprocessor)
            {[ "preprocessor" := Sample.as_value Sample.bert_preprocessor ]})
     | Raise e => Raise e
     end).
Proof.
  apply (@from_preset_explicit_preprocessor _ _ Sample.collaborators
           Sample.cBertClassifier "bert_base_en" true
           {[ "preprocessor" := Sample.as_value Sample.bert_preprocessor ]}
           Sample.cBertBackbone Sample.cBertClassifier
           (Sample.as_value Sample.bert_preprocessor));
    (discriminate || reflexivity).
Defined.

Lemma from_preset_without_preprocessor_cls_witness :
  @from_preset SampleBare.classes Sample.objects SampleBare.collaborators
    Sample.cBertClassifier "bert_base_en" true ∅ =
    ([CheckConfigClass "bert_base_en";
      LoadFromPreset (backbone_load_args "bert_base_en" true ∅);
      LoadFromPreset (tokenizer_load_args "bert_base_en")],
     Raise (TypeError "'NoneType' object is not callable")).
Proof.
  apply (@from_preset_without_preprocessor_cls SampleBare.classes Sample.objects
           SampleBare.collaborators
           Sample.cBertClassifier "bert_base_en" true ∅
           Sample.cBertBackbone Sample.cBertClassifier
           (Sample.LoadedModel "bert_base_en") (Sample.LoadedTokenizer "bert_base_en"));
    (discriminate || reflexivity).
Defined.

Lemma from_preset_task_preset_loaded_witness :
  from_preset Sample.cClassifier "./my_bert_classifier" false ∅ =
    ([CheckConfigClass "./my_bert_classifier";
      LoadFromPreset (task_load_args "./my_bert_classifier" false ∅)],
     match load_from_preset (task_load_args "./my_bert_classifier" false ∅) with
     | Ok o => Ok (Loaded o)
     | Raise e => Raise e
     end).
Proof.
  apply (@from_preset_task_preset_loaded _ _ Sample.collaborators
           Sample.cClassifier "./my_bert_classifier" false ∅ Sample.cBertClassifier);
    (discriminate || reflexivity).
Defined.

Lemma from_preset_loader_failure_witness :
  from_preset Sample.cClassifier "no_such_preset" true ∅ =
    ([CheckConfigClass "no_such_preset"],
     Raise (ValueError "Unknown preset identifier: no_such_preset")).
Proof.
  apply (@from_preset_loader_failure _ _ Sample.collaborators
           Sample.cClassifier "no_such_preset" true ∅
           (ValueError "Unknown preset identifier: no_such_preset"));
    (discriminate || reflexivity).
Defined.

Lemma from_preset_ambiguity_names_witness :
  ∃ pre post,
    from_preset Sample.cClassifier "bert_base_en" true ∅ =
      ([CheckConfigClass "bert_base_en"],
       Raise (ValueError
                (pre +:+ "`" +:+ cls_name Sample.cTinyBertClassifier +:+ "`" +:+ post))).
Proof.
  apply (@from_preset_ambiguity_names _ _ Sample.collaborators
           Sample.cClassifier "bert_base_en" true ∅ Sample.cBertBackbone
           Sample.cTinyBertClassifier);
    try (discriminate || reflexivity).
  - vm_compute. lia.
  - apply list_elem_of_In. vm_compute. right. left. reflexivity.
Defined.

Lemma compile_jit_compile_witness :
  ∃ kw,
    @compile _ _ SampleTorch.collaborators
      (Sample.bert_classifier (Sample.bert_task VNone)) (VStr "rmsprop")
      (LossSingle (VStr "mse")) {[ "jit_compile" := VBool true ]} =
      @keras_compile _ _ SampleTorch.collaborators
        (Sample.bert_classifier (Sample.bert_task VNone)) (VStr "rmsprop")
        (LossSingle (VStr "mse")) kw
    ∧ kw !! "jit_compile" = Some (VBool false)
    ∧ ∀ k, k ≠ "jit_compile" →
           kw !! k = ({[ "jit_compile" := VBool true ]} : gmap string value) !! k.
Proof.
  apply (@compile_jit_compile _ _ SampleTorch.collaborators
           (Sample.bert_classifier (Sample.bert_task VNone)) (VStr "rmsprop")
           (LossSingle (VStr "mse")) {[ "jit_compile" := VBool true ]});
    reflexivity.
Defined.

Lemma property_assignment_routes_witness :
  @setattr _ _ SampleTorch.collaborators SampleTorch.blank "backbone"
    (Sample.model "bert_base_en") =
    Ok (dict_setattr SampleTorch.blank (attribute_of "backbone")
          (Sample.model "bert_base_en"))
  ∧ getattr_or_none
      (dict_setattr SampleTorch.blank (attribute_of "backbone")
         (Sample.model "bert_base_en"))
      (attribute_of "backbone") = Sample.model "bert_base_en".
Proof.
  apply (@property_assignment_routes _ _ SampleTorch.collaborators
           SampleTorch.blank "backbone" (Sample.model "bert_base_en")).
  - left. reflexivity.
  - left. reflexivity.
  - reflexivity.
Defined.

Lemma sample_keras_track_keeps : @keras_track_keeps _ _ Sample.collaborators.
Proof. intros self self' name v k [= <-] Hk. reflexivity. Defined.

Lemma preprocessor_disabled_witness :
  preprocessor (Sample.store (Sample.bert_task VNone) "_preprocessor" VNone) = VNone
  ∧ preprocess_samples (Sample.store (Sample.bert_task VNone) "_preprocessor" VNone)
      (VStr "hello") VNone VNone = Ok (VStr "hello", VNone, VNone)
  ∧ layers (Sample.store (Sample.bert_task VNone) "_preprocessor" VNone) =
      Ok (inst_layers (Sample.store (Sample.bert_task VNone) "_preprocessor" VNone))
  ∧ backbone (Sample.store (Sample.bert_task VNone) "_preprocessor" VNone) =
      backbone (Sample.bert_task VNone).
Proof.
  apply (@preprocessor_disabled _ _ Sample.collaborators (Sample.bert_task VNone)).
  - exact sample_keras_track_keeps.
  - reflexivity.
Defined.


Lemma get_config_after_assignment_witness :
  get_config (Sample.store Sample.bare_task "_backbone"
                (Sample.model "xlm_roberta_base_multi")) !! "backbone" =
    Some (keras_layers_serialize (Sample.model "xlm_roberta_base_multi"))
  ∧ get_config (Sample.store Sample.bare_task "_backbone"
                  (Sample.model "xlm_roberta_base_multi")) !! "preprocessor" =
      get_config Sample.bare_task !! "preprocessor".
Proof.
  apply (@get_config_after_assignment _ _ Sample.collaborators Sample.bare_task).
  - exact sample_keras_track_keeps.
  - reflexivity.
Defined.

Lemma from_config_without_dicts_witness :
  from_config Sample.cBertClassifier
    {[ "backbone" := Sample.model "bert_base_en"; "name" := VStr "classifier" ]} =
    construct Sample.cBertClassifier
      {[ "backbone" := Sample.model "bert_base_en"; "name" := VStr "classifier" ]}.
Proof.
  apply (@from_config_without_dicts _ _ Sample.collaborators Sample.cBertClassifier).
  - intros c Hc. vm_compute in Hc. discriminate Hc.
  - intros c Hc. vm_compute in Hc. discriminate Hc.
Defined.

Lemma deserialize_entry_idempotent_witness :
  deserialize_entry "backbone"
    (<["backbone" := Sample.as_value (Sample.Restored "model:bert_base_en")]>
       (get_config (Sample.bert_task VNone))) =
    Ok (<["backbone" := Sample.as_value (Sample.Restored "model:bert_base_en")]>
          (get_config (Sample.bert_task VNone))).
Proof.
  apply (@deserialize_entry_idempotent _ _ Sample.collaborators "backbone"
           (get_config (Sample.bert_task VNone))).
  reflexivity.
Defined.

Lemma presets_precedence_witness :
  ∃ m, presets_returns Sample.height Sample.cClassifier m
       ∧ ∀ l1 s l2 ms x,
           list_subclasses Sample.cClassifier = l1 ++ s :: l2 →
           presets_returns Sample.height s ms →
           ms !! "bert_base_en" = Some x →
           (∀ s' ms', s' ∈ l2 → presets_returns Sample.height s' ms' →
                      ms' !! "bert_base_en" = None) →
           m !! "bert_base_en" = Some x.
Proof.
  destruct (@presets_one_level _ _ Sample.collaborators Sample.height
              sample_height_decreases Sample.cClassifier)
    as (m & Hm & _).
  exists m. split; [exact Hm|].
  apply (@presets_precedence _ _ Sample.collaborators Sample.height Sample.cClassifier
           m "bert_base_en" sample_height_decreases Hm).
Defined.

Lemma presets_of_subclass_listed_witness :
  ∃ m md, presets_returns Sample.height Sample.cClassifier m
          ∧ presets_returns Sample.height Sample.cBertClassifier md
          ∧ dom md ⊆ dom m.
Proof.
  destruct (@presets_one_level _ _ Sample.collaborators Sample.height
              sample_height_decreases Sample.cClassifier)
    as (m & Hm & _).
  destruct (@presets_one_level _ _ Sample.collaborators Sample.height
              sample_height_decreases Sample.cBertClassifier)
    as (md & Hmd & _).
  exists m, md. split; [exact Hm|]. split; [exact Hmd|].
  apply (@presets_of_subclass_listed _ _ Sample.collaborators Sample.height
           Sample.cClassifier Sample.cBertClassifier m md sample_height_decreases);
    [|exact Hm|exact Hmd].
  apply rtc_once. apply list_elem_of_In. vm_compute. left. reflexivity.
Defined.

Lemma dir_lists_witness :
  (@config_keras_3 _ _ SampleTorch.keras_2 = true →
     ["name"; "compile"] = ["backbone"; "transformer_layers"; "name"; "compile"])
  ∧ (@config_keras_3 _ _ SampleTorch.keras_2 = false →
     ["name"; "compile"] `sublist_of` ["backbone"; "transformer_layers"; "name"; "compile"]
     ∧ ∀ attr, attr ∈ ["name"; "compile"] ↔
               attr ∈ ["backbone"; "transformer_layers"; "name"; "compile"]
               ∧ (attr ∉ saving_attrs)
               ∧ ∃ v, SampleTorch.attr_of attr = Ok v
                      ∧ SampleTorch.id_of v ∉
                          functional_layer_ids SampleTorch.id_of
                            [Sample.LoadedModel "bert_base_en"; Sample.Layer "logits"]).
Proof.
  apply (@dir_lists _ _ SampleTorch.keras_2 SampleTorch.id_of SampleTorch.attr_of
           (functional_layer_ids SampleTorch.id_of
              [Sample.LoadedModel "bert_base_en"; Sample.Layer "logits"])
           ["backbone"; "transformer_layers"; "name"; "compile"] ["name"; "compile"]).
  vm_compute. reflexivity.
Defined.

Lemma dir_hides_functional_layers_witness :
  "name" ∈ ["name"; "compile"] ∧ "backbone" ∉ ["name"; "compile"].
Proof.
  split; [by left|].
  apply (@dir_hides_functional_layers _ _ SampleTorch.keras_2
           SampleTorch.id_of SampleTorch.attr_of
           [Sample.LoadedModel "bert_base_en"; Sample.Layer "logits"]
           ["backbone"; "transformer_layers"; "name"; "compile"] ["name"; "compile"]
           "backbone" (Sample.LoadedModel "bert_base_en")).
  - reflexivity.
  - vm_compute. reflexivity.
  - by left.
  - reflexivity.
Defined.

Lemma dir_raises_witness :
  @__dir__ _ _ SampleTorch.keras_2 SampleTorch.id_of SampleTorch.attr_of ∅
    ["name"; "transformer_layers"; "optimizer"] = Raise (AttributeError "optimizer") ↔
  ∃ l1 attr l2,
    ["name"; "transformer_layers"; "optimizer"] = l1 ++ attr :: l2
    ∧ (attr ∉ saving_attrs)
    ∧ SampleTorch.attr_of attr = Raise (AttributeError "optimizer")
    ∧ ∀ a, a ∈ l1 → a ∈ saving_attrs ∨ ∃ v, SampleTorch.attr_of a = Ok v.
Proof.
  apply (@dir_raises _ _ SampleTorch.keras_2 SampleTorch.id_of SampleTorch.attr_of).
  reflexivity.
Defined.

Example dir_on_keras_2 :
  @__dir__ _ _ SampleTorch.keras_2 SampleTorch.id_of SampleTorch.attr_of
    (functional_layer_ids SampleTorch.id_of
       [Sample.LoadedModel "bert_base_en"; Sample.Layer "logits"])
    ["backbone"; "transformer_layers"; "name"; "compile"] = Ok ["name"; "compile"]
  ∧ @__dir__ _ _ SampleTorch.keras_2 SampleTorch.id_of SampleTorch.attr_of ∅
      ["name"; "transformer_layers"; "optimizer"] = Raise (AttributeError "optimizer").
Proof. split; vm_compute; reflexivity. Qed.
